(** * partial.js — lib/sqlite.js

    A shallow embedding of the SQLite facade of partial.js
    ([src/lib/sqlite.js]) and the properties its specification states
    about statement assembly, parameter normalisation and error
    delivery.

    JavaScript strings are [string], JavaScript objects are association
    lists in key-insertion order (the order [Object.keys] enumerates),
    integral numbers are [Z].  The sqlite3 driver is an oracle that
    answers each statement with the arguments it hands to the node-style
    continuation; an operation's behaviour is the exception it throws at
    the call site, or the statements it issues together with what happens
    inside the driver's continuation. *)

From Stdlib Require Import String Ascii List ZArith Lia Bool.
From Stdlib Require Import DecimalString.
Import ListNotations.

Local Open Scope string_scope.
Local Open Scope Z_scope.

(** ** JavaScript string primitives used by the file *)

Module Js.

(** [s.indexOf(c)] for a one-character needle: position of the first
    occurrence, [-1] when there is none. *)
Fixpoint indexOf_from (c : ascii) (s : string) (i : Z) : Z :=
  match s with
  | EmptyString => -1
  | String a s' => if Ascii.eqb a c then i else indexOf_from c s' (i + 1)
  end.

Definition indexOf (c : ascii) (s : string) : Z := indexOf_from c s 0.

Fixpoint drop (n : nat) (s : string) : string :=
  match n, s with
  | O, _ => s
  | S _, EmptyString => EmptyString
  | S n', String _ s' => drop n' s'
  end.

(** [s.substring(start)]: a negative start counts as 0, a start past the
    end gives the empty string. *)
Definition substring (start : Z) (s : string) : string :=
  drop (Z.to_nat start) s.

(** [s.replace(/c/g, r)] for a one-character pattern. *)
Fixpoint replace (c : ascii) (r : string) (s : string) : string :=
  match s with
  | EmptyString => EmptyString
  | String a s' =>
      if Ascii.eqb a c then r ++ replace c r s'
      else String a (replace c r s')
  end.

(** [a.join(sep)] on an array of strings. *)
Definition join (sep : string) (a : list string) : string :=
  String.concat sep a.

(** [a.indexOf(x) === -1] on an array of strings. *)
Definition absent (x : string) (a : list string) : bool :=
  negb (existsb (String.eqb x) a).

(** ['' + n] for an integral number. *)
Definition number_to_string (n : Z) : string :=
  NilZero.string_of_int (Z.to_int n).

(** Occurrence of a character in a string. *)
Fixpoint occurs (c : ascii) (s : string) : Prop :=
  match s with
  | EmptyString => False
  | String a s' => a = c \/ occurs c s'
  end.

(** [s] ends with [suffix]. *)
Definition ends_with (s suffix : string) : Prop :=
  exists prefix, s = prefix ++ suffix.

End Js.

(** ** JavaScript values *)

Inductive JsError :=
| Error (message : string)
| TypeError (message : string).

(** A date as its local-time calendar fields, the numbers [getFullYear],
    [getMonth() + 1], [getDate], [getHours], [getMinutes] and [getSeconds]
    return. *)
Record Date := mkDate {
  year : Z;
  month : Z;
  day : Z;
  hours : Z;
  minutes : Z;
  seconds : Z
}.

#[warnings="-register-all"]
Inductive jsval :=
| JUndefined
| JNull
| JBool (b : bool)
| JNum (n : Z)
| JStr (s : string)
| JDate (d : Date)
| JErr (e : JsError)
| JObj (o : list (string * jsval))
| JArr (a : list jsval).

(** A plain object: its own enumerable properties in insertion order,
    each name once.  Property names here are column names and
    placeholders, never array indices, so insertion order is the order
    [Object.keys] enumerates. *)
Definition obj := list (string * jsval).

Bind Scope list_scope with obj.

(** [Object.keys(o)] *)
Definition keys (o : obj) : list string := map fst o.

(** [o[k]]: [undefined] for a missing property. *)
Fixpoint obj_get (k : string) (o : obj) : jsval :=
  match o with
  | [] => JUndefined
  | (k', v) :: o' => if String.eqb k' k then v else obj_get k o'
  end.

(** [o[k] = v]: an existing property keeps its place, a new one goes
    last. *)
Fixpoint obj_set (k : string) (v : jsval) (o : obj) : obj :=
  match o with
  | [] => [(k, v)]
  | (k', v') :: o' =>
      if String.eqb k' k then (k, v) :: o' else (k', v') :: obj_set k v o'
  end.

(** The first argument of a node-style continuation. *)
Definition err_val (err : option JsError) : jsval :=
  match err with
  | None => JNull
  | Some e => JErr e
  end.

(** Evaluation of an expression that may throw. *)
Inductive res (A : Type) :=
| Ok (a : A)
| Throw (e : JsError).

Arguments Ok {A} a.
Arguments Throw {A} e.

Definition bind {A B : Type} (m : res A) (f : A -> res B) : res B :=
  match m with
  | Ok a => f a
  | Throw e => Throw e
  end.

Notation "x <- m ;; k" := (bind m (fun x => k))
  (at level 61, m at next level, right associativity).

(** ** utils *)

Module Utils.

(** Modelled from the spec: [utils.isDate] (lib/utils.js is not among the
    sources); true exactly of date-typed values. *)
Definition isDate (v : jsval) : bool :=
  match v with
  | JDate _ => true
  | _ => false
  end.

Fixpoint zeros (n : nat) : string :=
  match n with
  | O => EmptyString
  | S n' => String "0" (zeros n')
  end.

(** Left padding with ["0"] up to [width]; a longer text is kept whole. *)
Definition padLeft (width : nat) (s : string) : string :=
  zeros (width - String.length s) ++ s.

(** Modelled from the spec: [Date.prototype.format] (lib/utils.js is not
    among the sources) at the one pattern this file passes,
    ['yyyy-MM-dd HH:mm:ss']: fixed-width fields, zero-padded, 24-hour
    clock, no timezone conversion. *)
Definition format (d : Date) : string :=
  padLeft 4 (Js.number_to_string (year d)) ++ "-"
  ++ padLeft 2 (Js.number_to_string (month d)) ++ "-"
  ++ padLeft 2 (Js.number_to_string (day d)) ++ " "
  ++ padLeft 2 (Js.number_to_string (hours d)) ++ ":"
  ++ padLeft 2 (Js.number_to_string (minutes d)) ++ ":"
  ++ padLeft 2 (Js.number_to_string (seconds d)).

(** A calendar date-time whose year has at most four digits. *)
Definition calendar (d : Date) : Prop :=
  0 <= year d <= 9999 /\ 1 <= month d <= 12 /\ 1 <= day d <= 31
  /\ 0 <= hours d <= 23 /\ 0 <= minutes d <= 59 /\ 0 <= seconds d <= 59.

End Utils.

(** ** builders *)

Module Builders.

(** What [builders.primaryKey] answers for a schema with a primary key:
    the key column and whether the caller supplies it on insert. *)
Record PrimaryKey := mkPrimaryKey {
  name : string;
  insert : bool
}.

(** Modelled from the spec: the process-wide schema registry behind
    [builders.schema(name)] and [builders.primaryKey(name)]
    (lib/builders.js is not among the sources).  Both answer [null] for a
    name they do not know; a schema is an object keyed by column name. *)
Record Registry := mkRegistry {
  schema : string -> option obj;
  primaryKey : string -> option PrimaryKey
}.

(** Modelled from the spec: [ParameterBuilder], an accumulator of
    (name, value) entries kept in its [params] object. *)
Record ParameterBuilder := mkParameterBuilder {
  pb_params : obj
}.

Definition new_ParameterBuilder : ParameterBuilder := mkParameterBuilder [].

(** Modelled from the spec: [ParameterBuilder.prototype.add(name, value)]
    stores one entry. *)
Definition add (column : string) (value : jsval) (b : ParameterBuilder)
  : ParameterBuilder :=
  mkParameterBuilder (obj_set column value (pb_params b)).

(** Modelled from the spec: [QueryBuilder], the filter fragments in
    [builder] and the values they reference in [params]. *)
Record QueryBuilder := mkQueryBuilder {
  qb_builder : list string;
  qb_params : obj
}.

(** Modelled from the spec: [hasValue()], at least one fragment was
    accumulated. *)
Definition hasValue (b : QueryBuilder) : bool :=
  match qb_builder b with
  | [] => false
  | _ :: _ => true
  end.

Record OrderItem := mkOrderItem {
  oi_type : string;
  oi_name : string
}.

(** Modelled from the spec: [OrderBuilder], the sort directives in
    [builder]. *)
Record OrderBuilder := mkOrderBuilder {
  ob_builder : list OrderItem
}.

End Builders.

(** ** The sqlite3 driver *)

(** What [make] returns: normalised SQL text or a parameter object. *)
Inductive made :=
| Text (sql : string)
| Params (arg : obj).

(** A statement handed to the driver, with the arguments as [make]
    returned them. *)
Inductive request :=
| Prepare (sql params : made)
| Run (sql params : made)
| Get (sql params : made)
| All (sql params : made).

(** The driver answers a statement with the arguments of its
    continuation: [prepare] with [err]; [run] with [err] and the
    statement's [lastID] and [changes]; [get] with [err] and the row if
    there is one; [all] with [err] and the rows. *)
Record Driver := mkDriver {
  db_prepare : made -> made -> option JsError;
  db_run : made -> made -> option JsError * (Z * Z);
  db_get : made -> made -> option JsError * option obj;
  db_all : made -> made -> option JsError * option (list obj)
}.

(** What happens inside the driver's continuation: the caller's callback
    is invoked with arguments, or an exception escapes before it is. *)
Inductive completion :=
| Invoked (args : list jsval)
| Raised (e : JsError).

(** An operation throws at the call site, before any statement reaches
    the driver, or returns after issuing statements whose continuation
    ends in [k]. *)
Inductive outcome (K : Type) :=
| Thrown (e : JsError)
| Issued (requests : list request) (k : K).

Arguments Thrown {K} e.
Arguments Issued {K} requests k.

(** ** lib/sqlite.js *)

Definition errors : list string :=
  ["Schema not defined."; "Primary key not defined.";
   "Parameter builder must be QueryBuilder type.";
   "Parameter builder must be OrderBuilder type."; "Timeout"].

(** [new Error(errors[i])] *)
Definition error_at (i : nat) : JsError := Error (nth i errors "").

Definition prepareSchema (name : string) : string :=
  let index := Js.indexOf "#" name in
  let index := if index =? 0 then Js.indexOf "/" name else index in
  Js.substring (index + 1) name.

(** The argument of [make]: [null], [undefined], a string, a builder
    carrying [params], or a plain object. *)
Inductive make_arg :=
| MNull
| MUndefined
| MString (s : string)
| MQueryBuilder (b : Builders.QueryBuilder)
| MParameterBuilder (b : Builders.ParameterBuilder)
| MObject (o : obj).

(** [val.format('yyyy-MM-dd HH:mm:ss')] *)
Definition formatted (val : jsval) : jsval :=
  match val with
  | JDate d => JStr (Utils.format d)
  | _ => val
  end.

(** The body of the [forEach] in [make]. *)
Definition make_entry (value : obj) (arg : obj) (o : string) : obj :=
  let val := obj_get o value in
  let val := if Utils.isDate val then formatted val else val in
  obj_set ("$" ++ o) val arg.

Definition make_object (value : obj) : obj :=
  fold_left (make_entry value) (keys value) [].

Definition make_string (value : string) : string :=
  Js.replace "}" "" (Js.replace "{" "$" value).

Definition make (value : make_arg) : made :=
  match value with
  | MNull | MUndefined => Params []
  | MString s => Text (make_string s)
  | MQueryBuilder b => Params (make_object (Builders.qb_params b))
  | MParameterBuilder b => Params (make_object (Builders.pb_params b))
  | MObject o => Params (make_object o)
  end.

(** The second argument of [execute]'s continuation on success. *)
Record ExecData := mkExecData {
  id : Z;
  changes : Z
}.

(** The builder argument of [count] and [findAll]: [null], a
    [QueryBuilder], or anything that is not an instance of it. *)
Inductive builder_arg :=
| NullBuilder
| AQueryBuilder (b : Builders.QueryBuilder)
| NotAQueryBuilder.

(** The order argument of [findAll]. *)
Inductive order_arg :=
| NullOrder
| AnOrderBuilder (b : Builders.OrderBuilder)
| NotAnOrderBuilder.

(** What [scalar] and [reader] receive as [params] from [count] and
    [findAll]; they are reached only past the [instanceof] check. *)
Definition builder_params (builder : builder_arg) : make_arg :=
  match builder with
  | AQueryBuilder b => MQueryBuilder b
  | _ => MNull
  end.

(** [data.<field>] where [data] may be [null]. *)
Definition property {A B : Type} (field : string) (read : A -> B)
  (data : option A) : res B :=
  match data with
  | Some d => Ok (read d)
  | None =>
      Throw (TypeError ("Cannot read property '" ++ field ++ "' of null"))
  end.

(** The caller's callback is reached with the evaluated arguments, unless
    evaluating them threw. *)
Definition call (args : res (list jsval)) : completion :=
  match args with
  | Ok a => Invoked a
  | Throw e => Raised e
  end.

(** [if (builder !== null) { ... }] of [count] and [findAll]: the WHERE
    text. *)
Definition where_of (builder : builder_arg) : res string :=
  match builder with
  | NullBuilder => Ok ""
  | NotAQueryBuilder => Throw (error_at 2)
  | AQueryBuilder b =>
      Ok (if Builders.hasValue b
          then " WHERE " ++ Js.join " " (Builders.qb_builder b)
          else "")
  end.

(** The body of [order.builder.forEach] in [findAll]. *)
Definition sort_step (sort : string) (o : Builders.OrderItem) : string :=
  if String.eqb (Builders.oi_type o) "desc"
  then sort ++ (if (0 <? String.length sort)%nat then ", " else "")
       ++ Builders.oi_name o ++ " DESC"
  else sort.

Definition sort_of (order : order_arg) : res string :=
  match order with
  | NullOrder => Ok ""
  | NotAnOrderBuilder => Throw (error_at 3)
  | AnOrderBuilder b => Ok (fold_left sort_step (Builders.ob_builder b) "")
  end.

(** The columns of a schema object that are not in [without]. *)
Definition columns_of (obj : obj) (without : list string) : list string :=
  filter (fun o => Js.absent o without) (keys obj).

(** [x || 0] for an optional number. *)
Definition or_zero (x : option Z) : Z :=
  match x with
  | Some n => n
  | None => 0
  end.

(** [without || []] *)
Definition or_empty (without : option (list string)) : list string :=
  match without with
  | Some w => w
  | None => []
  end.

(** The pagination tail of [findAll]. *)
Definition paginate (query : string) (take skip : Z) : string :=
  if negb (take =? 0) && negb (skip =? 0)
  then query ++ " LIMIT " ++ Js.number_to_string take
       ++ " OFFSET " ++ Js.number_to_string skip
  else if negb (take =? 0)
  then query ++ " LIMIT " ++ Js.number_to_string take
  else if negb (skip =? 0)
  then query ++ " OFFSET " ++ Js.number_to_string take
  else query.

(** The query of [findAll] before pagination. *)
Definition select_query (schema : string) (column : list string)
  (where' sort : string) : string :=
  "SELECT " ++ Js.join ", " column ++ " FROM " ++ prepareSchema schema
  ++ where' ++ (if (0 <? String.length sort)%nat then " ORDER BY " ++ sort else "").

Definition insert_query (schema : string) (column : list string) : string :=
  "INSERT INTO " ++ prepareSchema schema ++ "(" ++ Js.join "," column
  ++ ") VALUES(" ++ Js.join "," (map (fun o => "{" ++ o ++ "}") column) ++ ")".

Definition update_query (schema : string) (column : list string)
  (primary : string) : string :=
  "UPDATE " ++ prepareSchema schema ++ " SET "
  ++ Js.join "," (map (fun o => o ++ "={" ++ o ++ "}") column)
  ++ " WHERE " ++ primary ++ "={" ++ primary ++ "}".

Definition delete_query (schema primary : string) : string :=
  "DELETE FROM " ++ prepareSchema schema ++ " WHERE " ++ primary
  ++ "={" ++ primary ++ "}".

Definition findPK_query (schema : string) (column : list string)
  (primary : string) : string :=
  "SELECT " ++ Js.join ", " column ++ " FROM " ++ prepareSchema schema
  ++ " WHERE " ++ primary ++ "={" ++ primary ++ "} LIMIT 1".

(** [parameterBuilder.add(o, value[o])] over a list of columns. *)
Definition add_columns (value : obj) (column : list string)
  : Builders.ParameterBuilder :=
  fold_left (fun b o => Builders.add o (obj_get o value) b) column
    Builders.new_ParameterBuilder.

Section SQLite.

Variable registry : Builders.Registry.
Variable db : Driver.

(** [execute(sql, params, callback)]; the call form without [params] is
    the one with [params = null].  [K] is what the continuation amounts
    to. *)
Definition execute {K : Type} (sql : string) (params : make_arg)
  (callback : option JsError -> option ExecData -> K) : list request * K :=
  let params := make params in
  let sql := make (MString sql) in
  match db_prepare db sql params with
  | Some err => ([Prepare sql params], callback (Some err) None)
  | None =>
      let '(err, (lastID, changes)) := db_run db sql params in
      ([Prepare sql params; Run sql params],
       callback err
         (match err with
          | None => Some (mkExecData lastID changes)
          | Some _ => None
          end))
  end.

(** [get(sql, params, callback)]: a missing row reaches the callback as
    [null]. *)
Definition get {K : Type} (sql : string) (params : make_arg)
  (callback : option JsError -> option obj -> K) : list request * K :=
  let sql := make (MString sql) in
  let params := make params in
  let '(err, data) := db_get db sql params in
  ([Get sql params],
   callback err (match err with None => data | Some _ => None end)).

Definition scalar {K : Type} (sql : string) (params : make_arg)
  (callback : option JsError -> option obj -> K) : list request * K :=
  get sql params callback.

(** [reader(sql, params, callback)]: missing rows reach the callback as
    the empty array. *)
Definition reader {K : Type} (sql : string) (params : make_arg)
  (callback : option JsError -> option (list obj) -> K) : list request * K :=
  let sql := make (MString sql) in
  let params := make params in
  let '(err, data) := db_all db sql params in
  ([All sql params],
   callback err
     (match err with
      | None => Some (match data with Some rows => rows | None => [] end)
      | Some _ => None
      end)).

Definition issued {K : Type} (r : list request * K) : outcome K :=
  Issued (fst r) (snd r).

(** [count(schema, builder, callback)]; [count(schema, callback)] is the
    call with a [null] builder.  The assignment [builder.schema = obj]
    sets a field this file never reads. *)
Definition count (schema : string) (builder : builder_arg)
  : outcome completion :=
  match Builders.schema registry schema with
  | None => Thrown (error_at 0)
  | Some obj =>
      match where_of builder with
      | Throw e => Thrown e
      | Ok where' =>
          issued
            (scalar ("SELECT COUNT(*) As value FROM " ++ prepareSchema schema
                     ++ where')
               (builder_params builder)
               (fun err data =>
                  call (v <- match err with
                             | None => property "value" (obj_get "value") data
                             | Some _ => Ok (JNum 0)
                             end ;;
                        Ok [err_val err; v])))
      end
  end.

(** The SQL text [findAll] hands to [reader]. *)
Definition findAll_query (schema : string) (obj : obj) (builder : builder_arg)
  (order : order_arg) (take skip : option Z) (without : option (list string))
  : res string :=
  let take := or_zero take in
  let skip := or_zero skip in
  let without := or_empty without in
  let column := columns_of obj without in
  where' <- where_of builder ;;
  sort <- sort_of order ;;
  Ok (paginate (select_query schema column where' sort) take skip).

Definition rows_val (data : option (list obj)) : jsval :=
  match data with
  | Some rows => JArr (map JObj rows)
  | None => JNull
  end.

Definition row_val (data : option obj) : jsval :=
  match data with
  | Some row => JObj row
  | None => JNull
  end.

Definition findAll (schema : string) (builder : builder_arg)
  (order : order_arg) (take skip : option Z) (without : option (list string))
  : outcome completion :=
  match Builders.schema registry schema with
  | None => Thrown (error_at 0)
  | Some obj =>
      match findAll_query schema obj builder order take skip without with
      | Throw e => Thrown e
      | Ok query =>
          issued
            (reader query (builder_params builder)
               (fun err data => Invoked [err_val err; rows_val data]))
      end
  end.

Definition findTop (top : option Z) (schema : string) (builder : builder_arg)
  (order : order_arg) (without : option (list string)) : outcome completion :=
  findAll schema builder order top (Some 0) without.

Definition findPK (schema : string) (value : jsval)
  (without : option (list string)) : outcome completion :=
  match Builders.schema registry schema with
  | None => Thrown (error_at 0)
  | Some obj =>
      match Builders.primaryKey registry schema with
      | None => Thrown (error_at 1)
      | Some primary =>
          let without := or_empty without in
          let column := columns_of obj without in
          let query := findPK_query schema column (Builders.name primary) in
          let param := obj_set (Builders.name primary) value [] in
          issued
            (get query (MObject param)
               (fun err data => Invoked [err_val err; row_val data]))
      end
  end.

(** [without.push(primary.name)] when the key is not supplied on insert. *)
Definition insert_without (primary : option Builders.PrimaryKey)
  (without : list string) : list string :=
  match primary with
  | Some p =>
      if Builders.insert p then without
      else (without ++ [Builders.name p])%list
  | None => without
  end.

(** The continuation [insert] passes to [execute]; the second component
    is the caller's record as the continuation leaves it. *)
Definition insert_callback (primary : option Builders.PrimaryKey)
  (value : obj) (err : option JsError) (data : option ExecData)
  : completion * obj :=
  match (match err with
         | None =>
             name <- property "name" Builders.name primary ;;
             id <- property "id" id data ;;
             Ok (obj_set name (JNum id) value)
         | Some _ => Ok value
         end) with
  | Throw e => (Raised e, value)
  | Ok value' =>
      (call (changes <- property "changes" changes data ;;
             Ok [err_val err; JObj value'; JNum changes]),
       value')
  end.

(** [insert(schema, value, callback, without)].  The outcome carries
    what happened in the continuation and the caller's record as it is
    left; the callback's second argument is that same record.  (The
    [push] also lengthens a [without] array the caller passed.) *)
Definition insert (schema : string) (value : obj)
  (without : option (list string)) : outcome (completion * obj) :=
  match Builders.schema registry schema with
  | None => Thrown (error_at 0)
  | Some obj =>
      let without := or_empty without in
      let primary := Builders.primaryKey registry schema in
      let without := insert_without primary without in
      let column := columns_of obj without in
      let parameterBuilder := add_columns value column in
      let query := insert_query schema column in
      issued
        (execute query (MParameterBuilder parameterBuilder)
           (insert_callback primary value))
  end.

(** The continuation [update] and [delete] pass to [execute]. *)
Definition changes_callback (value : obj) (err : option JsError)
  (data : option ExecData) : completion * obj :=
  (call (changes <- property "changes" changes data ;;
         Ok [err_val err; JObj value; JNum changes]),
   value).

Definition update (schema : string) (value : obj)
  (without : option (list string)) : outcome (completion * obj) :=
  match Builders.schema registry schema with
  | None => Thrown (error_at 0)
  | Some obj =>
      let without := or_empty without in
      match Builders.primaryKey registry schema with
      | None => Thrown (error_at 1)
      | Some primary =>
          let without := (without ++ [Builders.name primary])%list in
          let values := columns_of obj without in
          let parameterBuilder := add_columns value (keys obj) in
          let query := update_query schema values (Builders.name primary) in
          issued
            (execute query (MParameterBuilder parameterBuilder)
               (changes_callback value))
      end
  end.

Definition delete (schema : string) (value : obj)
  : outcome (completion * obj) :=
  match Builders.schema registry schema with
  | None => Thrown (error_at 0)
  | Some obj =>
      match Builders.primaryKey registry schema with
      | None => Thrown (error_at 1)
      | Some primary =>
          let parameterBuilder :=
            Builders.add (Builders.name primary)
              (obj_get (Builders.name primary) value)
              Builders.new_ParameterBuilder in
          let query := delete_query schema (Builders.name primary) in
          issued
            (execute query (MParameterBuilder parameterBuilder)
               (changes_callback value))
      end
  end.

End SQLite.

(** ** Sample registrations and drivers *)

Definition PrimaryKeyNotDefined : JsError := Error "Primary key not defined.".

Definition users_schema : obj :=
  [("id", JObj []); ("name", JObj []); ("age", JObj [])].

Definition logs_schema : obj :=
  [("stamp", JObj []); ("line", JObj [])].

(** [users] has the engine-generated key [id]; [logs] has no primary
    key. *)
Definition sample_registry : Builders.Registry :=
  Builders.mkRegistry
    (fun n =>
       if String.eqb n "users" then Some users_schema
       else if String.eqb n "logs" then Some logs_schema
       else None)
    (fun n =>
       if String.eqb n "users" then Some (Builders.mkPrimaryKey "id" false)
       else None).

(** A driver on which every statement succeeds: [run] reports
    [lastID = 7] and [changes = 1], [get] finds no row, [all] no rows. *)
Definition quiet_driver : Driver :=
  mkDriver (fun _ _ => None) (fun _ _ => (None, (7, 1)))
    (fun _ _ => (None, None)) (fun _ _ => (None, Some [])).

(** A driver on which every statement fails with [e]. *)
Definition failing_driver (e : JsError) : Driver :=
  mkDriver (fun _ _ => Some e) (fun _ _ => (Some e, (0, 0)))
    (fun _ _ => (Some e, None)) (fun _ _ => (Some e, None)).


Definition constraint_error : JsError :=
  Error "SQLITE_CONSTRAINT: constraint failed".

Definition peter : obj := [("name", JStr "Peter"); ("age", JNum 28)].

(** The reading of the template rule in which only a [}] that closes a
    [{] is dropped: [depth] counts the placeholders still open. *)
Fixpoint strip_matched (depth : nat) (s : string) : string :=
  match s with
  | EmptyString => EmptyString
  | String a s' =>
      if Ascii.eqb a "{" then String "$" (strip_matched (S depth) s')
      else if Ascii.eqb a "}" then
        match depth with
        | O => String a (strip_matched O s')
        | S d => strip_matched d s'
        end
      else String a (strip_matched depth s')
  end.

(** One pass over the template: [{] becomes [$], every [}] is dropped,
    every other character is kept. *)
Fixpoint strip_all (s : string) : string :=
  match s with
  | EmptyString => EmptyString
  | String a s' =>
      if Ascii.eqb a "{" then String "$" (strip_all s')
      else if Ascii.eqb a "}" then strip_all s'
      else String a (strip_all s')
  end.

(** Every [}] of the template closes a [{] opened before it. *)
Fixpoint closes (depth : nat) (s : string) : bool :=
  match s with
  | EmptyString => true
  | String a s' =>
      if Ascii.eqb a "{" then closes (S depth) s'
      else if Ascii.eqb a "}" then
        match depth with
        | O => false
        | S d => closes d s'
        end
      else closes depth s'
  end.

(** Decidable form of [Js.ends_with]. *)
Definition ends_withb (s suffix : string) : bool :=
  (String.length suffix <=? String.length s)%nat
  && String.eqb (Js.drop (String.length s - String.length suffix) s) suffix.

(** The SQL text of the first statement an operation issued. *)
Definition issued_sql {K : Type} (o : outcome K) : option string :=
  match o with
  | Issued (Prepare (Text sql) _ :: _) _ => Some sql
  | Issued (Run (Text sql) _ :: _) _ => Some sql
  | Issued (Get (Text sql) _ :: _) _ => Some sql
  | Issued (All (Text sql) _ :: _) _ => Some sql
  | _ => None
  end.

(** What [make] stores for one property of its argument. *)
Definition made_entry (e : string * jsval) : string * jsval :=
  ("$" ++ fst e, if Utils.isDate (snd e) then formatted (snd e) else snd e).

(** A [ParameterBuilder] on which [add] was called for every entry of a
    mapping, in order. *)
Definition accumulate (entries : obj) : Builders.ParameterBuilder :=
  fold_left (fun b e => Builders.add (fst e) (snd e) b) entries
    Builders.new_ParameterBuilder.

(** Every number below [n] prints in at most [w] characters. *)
Definition prints_within (w n : nat) : bool :=
  forallb
    (fun k => (String.length (Js.number_to_string (Z.of_nat k)) <=? w)%nat)
    (seq 0 n).

Definition birthday : Date := mkDate 1985 3 7 9 5 0.

Definition peter_born : obj :=
  [("name", JStr "Peter"); ("born", JDate birthday)].

(** ** The connection object *)

Module Facade.

(** The handle [new sqlite3.cached.Database(fileName, sqlite3[mode])]
    yields: the file, the name of the mode flag looked up in the driver
    module, and whether the driver module was the [verbose()] one. *)
Record Database := mkDatabase {
  file : string;
  flag : string;
  verbose : bool
}.

(** The fields of a [SQLite] object. *)
Record SQLite := mkSQLite {
  db : option Database;
  isOpened : bool;
  fileName : string;
  mode : string;
  debug : bool
}.

(** [new SQLite(fileName, mode, debug)]; an omitted [mode] is [None]. *)
Definition create (fileName : string) (mode : option string) (debug : bool)
  : SQLite :=
  mkSQLite None false fileName
    (match mode with Some m => m | None => "" end) debug.

Definition open (self : SQLite) : SQLite :=
  if isOpened self then self
  else
    mkSQLite (Some (mkDatabase (fileName self) (mode self) (debug self)))
      true (fileName self) (mode self) (debug self).

Definition close (self : SQLite) : SQLite :=
  if negb (isOpened self) then self else self.

(** [database()]: the object after the call and the handle returned. *)
Definition database (self : SQLite) : SQLite * option Database :=
  let self := open self in
  (self, db self).

(** [run(sql, params)]: the object after the call and the statement the
    handle receives; [self.db.run] on a missing handle throws. *)
Definition run (self : SQLite) (sql : string) (params : obj)
  : SQLite * res request :=
  let self := open self in
  (self,
   _ <- property "run" (fun d => d) (db self) ;;
   Ok (Run (Text sql) (Params params))).

(** A call that only touches the connection state. *)
Inductive lifecycle :=
| Open
| Close.

Definition step (self : SQLite) (c : lifecycle) : SQLite :=
  match c with
  | Open => open self
  | Close => close self
  end.

End Facade.

(** ** Further vocabulary for the statements *)

(** The parameter [make] derives for column [o] of a record. *)
Definition bound (value : obj) (o : string) : string * jsval :=
  made_entry (o, obj_get o value).

(** The directives an order builder renders: the descending ones. *)
Definition descending (items : list Builders.OrderItem) : list string :=
  map (fun o => Builders.oi_name o ++ " DESC")
    (filter (fun o => String.eqb (Builders.oi_type o) "desc") items).

(** A driver that prepares every statement and fails each [run]. *)
Definition run_failing_driver (e : JsError) : Driver :=
  mkDriver (fun _ _ => None) (fun _ _ => (Some e, (0, 0)))
    (fun _ _ => (Some e, None)) (fun _ _ => (Some e, None)).

(** [orders] has the key [code], which the caller supplies on insert. *)
Definition orders_schema : obj :=
  [("code", JObj []); ("total", JObj [])].

Definition orders_registry : Builders.Registry :=
  Builders.mkRegistry
    (fun n => if String.eqb n "orders" then Some orders_schema else None)
    (fun n =>
       if String.eqb n "orders" then Some (Builders.mkPrimaryKey "code" true)
       else None).

Definition an_order : obj := [("code", JNum 40); ("total", JNum 99)].

Definition by_age_then_name : Builders.OrderBuilder :=
  Builders.mkOrderBuilder
    [Builders.mkOrderItem "desc" "age"; Builders.mkOrderItem "asc" "id";
     Builders.mkOrderItem "desc" "name"].

(** Number of occurrences of a character. *)
Fixpoint count_char (c : ascii) (s : string) : nat :=
  match s with
  | EmptyString => O
  | String a s' => (if Ascii.eqb a c then 1 else 0) + count_char c s'
  end.

(** The driver reports [e] for the statement [sql] with [params], at
    [prepare] or, when [prepare] succeeds, at [run]. *)
Definition reports (db : Driver) (sql params : made) (e : JsError) : Prop :=
  db_prepare db sql params = Some e
  \/ (db_prepare db sql params = None /\ fst (db_run db sql params) = Some e).

(** A driver that refuses to prepare the one statement [text] and
    accepts every other. *)
Definition picky_driver (text : string) (e : JsError) : Driver :=
  mkDriver
    (fun sql _ =>
       match sql with
       | Text t => if String.eqb t text then Some e else None
       | Params _ => None
       end)
    (fun _ _ => (None, (7, 1)))
    (fun _ _ => (None, None)) (fun _ _ => (None, Some [])).


Definition far_future : Date := mkDate 10000 1 1 0 0 0.

(** ** Strings *)

Lemma append_nil_r (s : string) : s ++ "" = s.
Proof. induction s as [|a s IH]; simpl; [reflexivity | now rewrite IH]. Qed.

Lemma append_assoc (a b c : string) : (a ++ b) ++ c = a ++ b ++ c.
Proof. induction a as [|x a IH]; simpl; [reflexivity | now rewrite IH]. Qed.

Lemma length_append (a b : string) :
  String.length (a ++ b) = (String.length a + String.length b)%nat.
Proof. induction a as [|x a IH]; simpl; [reflexivity | now rewrite IH]. Qed.

Lemma drop_append (p s : string) : Js.drop (String.length p) (p ++ s) = s.
Proof. induction p as [|x p IH]; simpl; [now destruct s | exact IH]. Qed.

Lemma occurs_append (c : ascii) (a b : string) :
  Js.occurs c (a ++ b) <-> Js.occurs c a \/ Js.occurs c b.
Proof. induction a as [|x a IH]; simpl; tauto. Qed.

Lemma indexOf_from_absent (c : ascii) (s : string) (i : Z) :
  ~ Js.occurs c s -> Js.indexOf_from c s i = -1.
Proof.
  revert i; induction s as [|a s IH]; simpl; intros i H; [reflexivity|].
  destruct (Ascii.eqb_spec a c) as [E|E]; [tauto|].
  apply IH; tauto.
Qed.

Lemma indexOf_from_first (c : ascii) (pre rest : string) (i : Z) :
  ~ Js.occurs c pre ->
  Js.indexOf_from c (pre ++ String c rest) i = i + Z.of_nat (String.length pre).
Proof.
  revert i; induction pre as [|a pre IH]; simpl; intros i H.
  - rewrite Ascii.eqb_refl; lia.
  - destruct (Ascii.eqb_spec a c) as [E|E]; [tauto|].
    rewrite IH by tauto; lia.
Qed.

(** ** prepareSchema *)

Lemma prepareSchema_marked (pre rest : string) :
  ~ Js.occurs "/" pre ->
  prepareSchema (String "#" (pre ++ String "/" rest)) = rest.
Proof.
  intros H; unfold prepareSchema, Js.indexOf; simpl.
  rewrite indexOf_from_first by exact H.
  unfold Js.substring.
  replace (Z.to_nat (1 + Z.of_nat (String.length pre) + 1))
    with (S (String.length (pre ++ "/"))) by (rewrite length_append; cbn [String.length]; lia).
  simpl.
  replace (pre ++ String "/" rest) with ((pre ++ "/") ++ rest)
    by (rewrite append_assoc; reflexivity).
  apply drop_append.
Qed.

Lemma prepareSchema_marked_no_separator (s : string) :
  ~ Js.occurs "/" s -> prepareSchema (String "#" s) = String "#" s.
Proof.
  intros H; unfold prepareSchema, Js.indexOf; simpl.
  now rewrite indexOf_from_absent.
Qed.

Lemma prepareSchema_unmarked (name : string) :
  ~ Js.occurs "#" name -> prepareSchema name = name.
Proof.
  intros H; unfold prepareSchema, Js.indexOf.
  now rewrite indexOf_from_absent.
Qed.

(** A [#] past the first position is not a marker, yet the text up to and
    including it is dropped. *)
Lemma prepareSchema_inner_hash (a : ascii) (pre rest : string) :
  a <> "#"%char -> ~ Js.occurs "#" pre ->
  prepareSchema (String a (pre ++ String "#" rest)) = rest.
Proof.
  intros Ha H; unfold prepareSchema, Js.indexOf; simpl.
  destruct (Ascii.eqb_spec a "#") as [E|_]; [contradiction|].
  rewrite indexOf_from_first by exact H.
  destruct (Z.eqb_spec (1 + Z.of_nat (String.length pre)) 0) as [E|_]; [lia|].
  unfold Js.substring.
  replace (Z.to_nat (1 + Z.of_nat (String.length pre) + 1))
    with (S (String.length (pre ++ "#"))) by (rewrite length_append; cbn [String.length]; lia).
  simpl.
  replace (pre ++ String "#" rest) with ((pre ++ "#") ++ rest)
    by (rewrite append_assoc; reflexivity).
  apply drop_append.
Qed.

Lemma occurs_first (c : ascii) (s : string) :
  ~ Js.occurs c s
  \/ exists pre rest, s = pre ++ String c rest /\ ~ Js.occurs c pre.
Proof.
  induction s as [|a s IH]; [left; intros []|].
  destruct (ascii_dec a c) as [E|E].
  - right. exists "", s. subst. split; [reflexivity | intros []].
  - destruct IH as [H|(pre & rest & -> & H)].
    + left. simpl. tauto.
    + right. exists (String a pre), rest. split; [reflexivity|].
      simpl. tauto.
Qed.

(** C7, as stated, fails: [app#users] does not start with the marker,
    yet it is not returned unchanged; and [#users] starts with the
    marker, yet nothing is stripped from it. *)
Lemma prepareSchema_unmarked_name_changed :
  prepareSchema "app#users" = "users"
  /\ prepareSchema "app#users" <> "app#users"
  /\ prepareSchema "#users" = "#users".
Proof. repeat split. discriminate. Qed.

(** C7, amended.  [prepareSchema] by cases, which cover every name: a
    name that starts with [#] and contains a [/] loses everything up to
    and including its first [/], the rest being returned as it is; a name
    that starts with [#] and contains no [/] is returned unchanged; a
    name in which [#] does not occur is returned unchanged; a name that
    does not start with [#] but contains one loses everything up to and
    including its first [#]. *)
Theorem prepareSchema_cases (name : string) :
  (forall pre rest,
      name = String "#" (pre ++ String "/" rest) -> ~ Js.occurs "/" pre ->
      prepareSchema name = rest)
  /\ (forall rest,
         name = String "#" rest -> ~ Js.occurs "/" rest ->
         prepareSchema name = name)
  /\ (~ Js.occurs "#" name -> prepareSchema name = name)
  /\ (forall a pre rest,
         name = String a (pre ++ String "#" rest) ->
         a <> "#"%char -> ~ Js.occurs "#" pre ->
         prepareSchema name = rest)
  /\ ((exists pre rest,
          name = String "#" (pre ++ String "/" rest) /\ ~ Js.occurs "/" pre)
      \/ (exists rest, name = String "#" rest /\ ~ Js.occurs "/" rest)
      \/ ~ Js.occurs "#" name
      \/ (exists a pre rest,
             name = String a (pre ++ String "#" rest)
             /\ a <> "#"%char /\ ~ Js.occurs "#" pre)).
Proof.
  split; [intros pre rest -> H; now apply prepareSchema_marked|].
  split; [intros rest -> H; now apply prepareSchema_marked_no_separator|].
  split; [apply prepareSchema_unmarked|].
  split; [intros a pre rest -> Ha H; now apply prepareSchema_inner_hash|].
  destruct name as [|a s]; [right; right; left; intros []|].
  destruct (ascii_dec a "#") as [E|E].
  - subst a. destruct (occurs_first "/" s) as [H|(pre & rest & -> & H)].
    + right; left. now exists s.
    + left. now exists pre, rest.
  - destruct (occurs_first "#" s) as [H|(pre & rest & -> & H)].
    + right; right; left. simpl. tauto.
    + right; right; right. now exists a, pre, rest.
Qed.

Lemma prepareSchema_cases_witness :
  prepareSchema "#admin/users" = "users"
  /\ prepareSchema "#users" = "#users"
  /\ prepareSchema "users" = "users"
  /\ prepareSchema "app#users" = "users".
Proof.
  assert (N : forall c s,
             (fix absent (s : string) : bool :=
                match s with
                | EmptyString => true
                | String a s' => negb (Ascii.eqb a c) && absent s'
                end) s = true -> ~ Js.occurs c s).
  { intros c s. induction s as [|a s IH]; simpl; [tauto|].
    destruct (Ascii.eqb_spec a c) as [E|E]; simpl; [discriminate|].
    intros H [F|F]; [contradiction | exact (IH H F)]. }
  split; [|split; [|split]].
  - apply (proj1 (prepareSchema_cases "#admin/users") "admin" "users");
      [reflexivity | apply N; reflexivity].
  - apply (proj1 (proj2 (prepareSchema_cases "#users")) "users");
      [reflexivity | apply N; reflexivity].
  - apply (proj1 (proj2 (proj2 (prepareSchema_cases "users")))).
    apply N; reflexivity.
  - apply (proj1 (proj2 (proj2 (proj2 (prepareSchema_cases "app#users"))))
             "a"%char "pp" "users");
      [reflexivity | discriminate | apply N; reflexivity].
Defined.

(** ** make on SQL text *)

Lemma make_string_strip_all (s : string) : make_string s = strip_all s.
Proof.
  unfold make_string.
  induction s as [|a s IH]; simpl; [reflexivity|].
  destruct (Ascii.eqb_spec a "{") as [E|E]; simpl.
  - now rewrite IH.
  - destruct (Ascii.eqb_spec a "}") as [E'|E']; simpl; now rewrite IH.
Qed.

Lemma strip_matched_closes (depth : nat) (s : string) :
  closes depth s = true -> strip_matched depth s = strip_all s.
Proof.
  revert depth; induction s as [|a s IH]; simpl; intros depth H; [reflexivity|].
  destruct (Ascii.eqb a "{"); [now rewrite IH|].
  destruct (Ascii.eqb a "}").
  - destruct depth; [discriminate H | now apply IH].
  - now rewrite IH.
Qed.

(** On a template whose every [}] closes a placeholder, [make] drops
    exactly the closing braces. *)
Lemma make_string_closed_template (s : string) :
  closes 0 s = true -> make (MString s) = Text (strip_matched 0 s).
Proof.
  intros H; simpl.
  now rewrite make_string_strip_all, strip_matched_closes.
Qed.

(** C9, as stated, fails: a [}] that closes no [{] is removed as well. *)
Lemma make_removes_unmatched_brace :
  make (MString "a}b") = Text "ab"
  /\ make (MString "a}b") <> Text (strip_matched 0 "a}b").
Proof. split; [reflexivity | discriminate]. Qed.

(** C9, amended.  For a raw SQL template, [make] returns the text with
    every [{] replaced by [$] and every [}] removed, whether or not it
    closes a [{]; no other character is altered and no value is
    substituted. *)
Theorem make_template_text (s : string) :
  make (MString s) = Text (strip_all s).
Proof. simpl. now rewrite make_string_strip_all. Qed.

(** ** make on parameter objects *)

Lemma keys_app (a b : obj) : keys (a ++ b) = (keys a ++ keys b)%list.
Proof. apply map_app. Qed.

Lemma obj_set_fresh (k : string) (v : jsval) (o : obj) :
  ~ In k (keys o) -> obj_set k v o = (o ++ [(k, v)])%list.
Proof.
  induction o as [|[k' v'] o IH]; simpl; intros H; [reflexivity|].
  destruct (String.eqb_spec k' k) as [E|E]; [tauto|].
  rewrite IH by tauto; reflexivity.
Qed.

Lemma obj_get_set_same (k : string) (v : jsval) (o : obj) :
  obj_get k (obj_set k v o) = v.
Proof.
  induction o as [|[k' v'] o IH]; simpl.
  - now rewrite String.eqb_refl.
  - destruct (String.eqb_spec k' k) as [E|E]; simpl.
    + now rewrite String.eqb_refl.
    + destruct (String.eqb_spec k' k); [contradiction | exact IH].
Qed.

Lemma obj_get_in (k : string) (v : jsval) (o : obj) :
  NoDup (keys o) -> In (k, v) o -> obj_get k o = v.
Proof.
  induction o as [|[k' v'] o IH]; simpl; intros ND H; [contradiction|].
  inversion ND as [|? ? Hn ND']; subst.
  destruct H as [H|H].
  - inversion H; subst. now rewrite String.eqb_refl.
  - destruct (String.eqb_spec k' k) as [E|E]; [|now apply IH].
    subst. exfalso. apply Hn. apply (in_map fst) in H. exact H.
Qed.

Lemma obj_get_made (k : string) (o : obj) :
  obj_get ("$" ++ k) (map made_entry o)
  = (if Utils.isDate (obj_get k o) then formatted (obj_get k o)
     else obj_get k o).
Proof.
  induction o as [|[k' v'] o IH]; simpl; [reflexivity|].
  destruct (String.eqb_spec k' k) as [E|E]; [reflexivity | exact IH].
Qed.

Lemma make_fold (value entries acc : obj) :
  (forall k v, In (k, v) entries -> obj_get k value = v) ->
  NoDup (keys entries) ->
  (forall k, In k (keys entries) -> ~ In ("$" ++ k) (keys acc)) ->
  fold_left (make_entry value) (keys entries) acc
  = (acc ++ map made_entry entries)%list.
Proof.
  revert acc; induction entries as [|[k v] es IH]; simpl; intros acc Hg ND Hf.
  - now rewrite app_nil_r.
  - inversion ND as [|? ? Hn ND']; subst.
    unfold make_entry at 2.
    rewrite (Hg k v) by now left.
    rewrite obj_set_fresh by (apply Hf; now left).
    rewrite IH.
    + rewrite <- app_assoc. reflexivity.
    + intros k' v' H. apply Hg. now right.
    + exact ND'.
    + intros k' Hk'. rewrite keys_app, in_app_iff. simpl.
      intros [H|[H|[]]].
      * apply (Hf k'); [now right | exact H].
      * inversion H; subst. contradiction.
Qed.

Lemma make_object_map (value : obj) :
  NoDup (keys value) -> make_object value = map made_entry value.
Proof.
  intros ND. unfold make_object.
  rewrite make_fold; [reflexivity | | exact ND | intros k _ []].
  intros k v H. now apply obj_get_in.
Qed.

Lemma accumulate_fold (entries : obj) (b : Builders.ParameterBuilder) :
  NoDup (keys entries) ->
  (forall k, In k (keys entries) -> ~ In k (keys (Builders.pb_params b))) ->
  Builders.pb_params
    (fold_left (fun b e => Builders.add (fst e) (snd e) b) entries b)
  = (Builders.pb_params b ++ entries)%list.
Proof.
  revert b; induction entries as [|[k v] es IH]; simpl; intros b ND Hf.
  - now rewrite app_nil_r.
  - inversion ND as [|? ? Hn ND']; subst.
    rewrite IH; simpl.
    + rewrite obj_set_fresh by (apply Hf; now left).
      rewrite <- app_assoc. reflexivity.
    + exact ND'.
    + intros k' Hk'. rewrite obj_set_fresh by (apply Hf; now left).
      rewrite keys_app, in_app_iff. simpl.
      intros [H|[H|[]]].
      * apply (Hf k'); [now right | exact H].
      * subst. contradiction.
Qed.

Lemma accumulate_params (entries : obj) :
  NoDup (keys entries) -> Builders.pb_params (accumulate entries) = entries.
Proof.
  intros ND. unfold accumulate.
  rewrite accumulate_fold; [reflexivity | exact ND | intros k _ []].
Qed.

(** ** Date rendering *)

Lemma length_zeros (n : nat) : String.length (Utils.zeros n) = n.
Proof. induction n as [|n IH]; simpl; [reflexivity | now rewrite IH]. Qed.

Lemma length_padLeft (w : nat) (s : string) :
  (String.length s <= w)%nat -> String.length (Utils.padLeft w s) = w.
Proof.
  intros H. unfold Utils.padLeft.
  rewrite length_append, length_zeros. lia.
Qed.

Lemma prints_within_bound (w n : nat) (z : Z) :
  prints_within w n = true -> 0 <= z < Z.of_nat n ->
  (String.length (Js.number_to_string z) <= w)%nat.
Proof.
  unfold prints_within. intros H Hz.
  rewrite forallb_forall in H.
  specialize (H (Z.to_nat z)).
  rewrite Z2Nat.id in H by lia.
  apply Nat.leb_le, H, in_seq. lia.
Qed.

Lemma two_digits (z : Z) :
  0 <= z <= 99 ->
  String.length (Utils.padLeft 2 (Js.number_to_string z)) = 2%nat.
Proof.
  intros H. apply length_padLeft.
  apply (prints_within_bound 2 (Z.to_nat 100)); [vm_compute; reflexivity | lia].
Qed.

Lemma four_digits (z : Z) :
  0 <= z <= 9999 ->
  String.length (Utils.padLeft 4 (Js.number_to_string z)) = 4%nat.
Proof.
  intros H. apply length_padLeft.
  apply (prints_within_bound 4 (Z.to_nat 10000)); [vm_compute; reflexivity | lia].
Qed.

Lemma format_length (d : Date) :
  Utils.calendar d -> String.length (Utils.format d) = 19%nat.
Proof.
  intros (Hy & Hm & Hd & Hh & Hi & Hs). unfold Utils.format.
  repeat rewrite length_append.
  rewrite four_digits by lia.
  repeat rewrite two_digits by lia.
  reflexivity.
Qed.

(** C6, amended.  [make] gives a bare mapping, a [ParameterBuilder] that
    accumulated the mapping and a [QueryBuilder] carrying it the same
    parameter set; its keys are ["$"] followed by the original keys, in
    order; a date value is stored as its [yyyy-MM-dd HH:mm:ss] text, 19
    characters long for a calendar date whose year has at most four
    digits; every other value is stored unchanged. *)
Theorem make_normalises_parameters (value : obj) :
  NoDup (keys value) ->
  let arg := make_object value in
  make (MObject value) = Params arg
  /\ make (MParameterBuilder (accumulate value)) = Params arg
  /\ (forall fragments,
         make (MQueryBuilder (Builders.mkQueryBuilder fragments value))
         = Params arg)
  /\ keys arg = map (fun o => "$" ++ o) (keys value)
  /\ (forall o d,
         obj_get o value = JDate d ->
         obj_get ("$" ++ o) arg = JStr (Utils.format d)
         /\ (Utils.calendar d -> String.length (Utils.format d) = 19%nat))
  /\ (forall o,
         Utils.isDate (obj_get o value) = false ->
         obj_get ("$" ++ o) arg = obj_get o value).
Proof.
  intros ND arg. subst arg.
  split; [reflexivity|].
  split; [simpl; now rewrite accumulate_params|].
  split; [reflexivity|].
  rewrite make_object_map by exact ND.
  split; [unfold keys; rewrite !map_map; reflexivity|].
  split.
  - intros o d H. split; [|apply format_length].
    rewrite obj_get_made, H. reflexivity.
  - intros o H. rewrite obj_get_made, H. reflexivity.
Qed.

Lemma make_normalises_parameters_witness :
  make (MParameterBuilder (accumulate peter_born)) = make (MObject peter_born)
  /\ keys (make_object peter_born) = ["$name"; "$born"]
  /\ obj_get "$born" (make_object peter_born) = JStr "1985-03-07 09:05:00"
  /\ String.length (Utils.format birthday) = 19%nat
  /\ obj_get "$name" (make_object peter_born) = JStr "Peter".
Proof.
  assert (ND : NoDup (keys peter_born)).
  { repeat constructor; simpl; intuition discriminate. }
  destruct (make_normalises_parameters peter_born ND)
    as (Ho & Hb & _ & Hk & Hd & Hv).
  destruct (Hd "born" birthday eq_refl) as [Hf Hl].
  split; [rewrite Hb, Ho; reflexivity|].
  split; [exact Hk|].
  split; [exact Hf|].
  split; [apply Hl; unfold Utils.calendar, birthday; simpl; lia|].
  apply (Hv "name"). reflexivity.
Defined.

(** C6, as stated, fails: a date whose year has five digits is rendered
    in 20 characters, not 19. *)
Lemma make_five_digit_year :
  make (MObject [("at", JDate far_future)])
  = Params [("$at", JStr "10000-01-01 00:00:00")]
  /\ String.length (Utils.format far_future) = 20%nat
  /\ String.length (Utils.format far_future) <> 19%nat.
Proof. repeat split. discriminate. Qed.

(** ** Text that [make] leaves alone *)

Lemma replace_append (c : ascii) (r a b : string) :
  Js.replace c r (a ++ b) = Js.replace c r a ++ Js.replace c r b.
Proof.
  induction a as [|x a IH]; simpl; [reflexivity|].
  destruct (Ascii.eqb x c); rewrite IH; [now rewrite append_assoc | reflexivity].
Qed.

Lemma replace_absent (c : ascii) (r s : string) :
  ~ Js.occurs c s -> Js.replace c r s = s.
Proof.
  induction s as [|x s IH]; simpl; intros H; [reflexivity|].
  destruct (Ascii.eqb_spec x c) as [E|E]; [tauto|].
  rewrite IH by tauto; reflexivity.
Qed.

Lemma make_string_append (a b : string) :
  make_string (a ++ b) = make_string a ++ make_string b.
Proof. unfold make_string. now rewrite !replace_append. Qed.

Lemma make_string_plain (s : string) :
  ~ Js.occurs "{" s -> ~ Js.occurs "}" s -> make_string s = s.
Proof.
  intros Ho Hc. unfold make_string.
  rewrite (replace_absent "{") by exact Ho.
  now apply replace_absent.
Qed.

Lemma digits_plain (c : ascii) (d : Decimal.uint) :
  ~ Js.occurs c "0123456789" -> ~ Js.occurs c (NilEmpty.string_of_uint d).
Proof.
  intros Hc. induction d; simpl; [tauto | | | | | | | | | | ];
    (intros [E|E]; [apply Hc; simpl; tauto | exact (IHd E)]).
Qed.

Lemma number_to_string_plain (c : ascii) (n : Z) :
  ~ Js.occurs c "0123456789-" -> ~ Js.occurs c (Js.number_to_string n).
Proof.
  intros Hc. unfold Js.number_to_string, NilZero.string_of_int.
  assert (Hd : ~ Js.occurs c "0123456789") by (simpl in *; tauto).
  assert (Hu : forall d, ~ Js.occurs c (NilZero.string_of_uint d)).
  { intros d. unfold NilZero.string_of_uint.
    destruct d; try apply (digits_plain c _ Hd).
    simpl. intros [E|[]]. apply Hd. simpl. tauto. }
  destruct (Z.to_int n) as [d|d]; [apply Hu|].
  simpl. intros [E|E]; [apply Hc; simpl; tauto | exact (Hu d E)].
Qed.

Lemma make_string_number (n : Z) :
  make_string (Js.number_to_string n) = Js.number_to_string n.
Proof.
  apply make_string_plain; apply number_to_string_plain; simpl;
    intros H; repeat (destruct H as [H|H]; [discriminate H|]); exact H.
Qed.

Lemma ends_with_append (p s : string) : Js.ends_with (p ++ s) s.
Proof. now exists p. Qed.

Lemma ends_with_tail (s t u : string) :
  Js.ends_with s (t ++ u) -> Js.ends_with s u.
Proof. intros [p ->]. exists (p ++ t). now rewrite append_assoc. Qed.

Lemma ends_with_ends_withb (s suffix : string) :
  Js.ends_with s suffix -> ends_withb s suffix = true.
Proof.
  intros [p ->]. unfold ends_withb.
  rewrite length_append.
  replace (String.length p + String.length suffix - String.length suffix)%nat
    with (String.length p) by lia.
  rewrite drop_append, String.eqb_refl, andb_true_r.
  apply Nat.leb_le. lia.
Qed.

(** ** findAll *)

Section FindAll.

Variable registry : Builders.Registry.
Variable db : Driver.

Lemma where_of_genuine (builder : builder_arg) :
  builder <> NotAQueryBuilder -> exists where', where_of builder = Ok where'.
Proof. destruct builder; simpl; intros H; eauto; contradiction. Qed.

Lemma sort_of_genuine (order : order_arg) :
  order <> NotAnOrderBuilder -> exists sort, sort_of order = Ok sort.
Proof. destruct order; simpl; intros H; eauto; contradiction. Qed.

Lemma issued_sql_reader {K : Type} (sql : string) (params : make_arg)
  (callback : option JsError -> option (list obj) -> K) :
  issued_sql (issued (reader db sql params callback)) = Some (make_string sql).
Proof. unfold reader. simpl. now destruct (db_all db _ _). Qed.

Lemma findAll_issues (schema : string) (obj : obj) (builder : builder_arg)
  (order : order_arg) (take skip : option Z) (without : option (list string))
  (where' sort : string) :
  Builders.schema registry schema = Some obj ->
  where_of builder = Ok where' -> sort_of order = Ok sort ->
  findAll_query schema obj builder order take skip without
  = Ok (paginate
          (select_query schema (columns_of obj (or_empty without)) where' sort)
          (or_zero take) (or_zero skip))
  /\ issued_sql (findAll registry db schema builder order take skip without)
     = Some (make_string
               (paginate
                  (select_query schema (columns_of obj (or_empty without))
                     where' sort)
                  (or_zero take) (or_zero skip))).
Proof.
  intros Hs Hw Ho.
  assert (Hq : findAll_query schema obj builder order take skip without
               = Ok (paginate
                       (select_query schema (columns_of obj (or_empty without))
                          where' sort)
                       (or_zero take) (or_zero skip))).
  { unfold findAll_query. rewrite Hw, Ho. reflexivity. }
  split; [exact Hq|].
  unfold findAll. rewrite Hs, Hq. apply issued_sql_reader.
Qed.

Lemma paginate_both (query : string) (take skip : Z) :
  take <> 0 -> skip <> 0 ->
  paginate query take skip
  = query ++ " LIMIT " ++ Js.number_to_string take
    ++ " OFFSET " ++ Js.number_to_string skip.
Proof.
  intros Ht Hk. unfold paginate.
  destruct (Z.eqb_spec take 0); [contradiction|].
  destruct (Z.eqb_spec skip 0); [contradiction|]. reflexivity.
Qed.

Lemma paginate_take (query : string) (take : Z) :
  take <> 0 ->
  paginate query take 0 = query ++ " LIMIT " ++ Js.number_to_string take.
Proof.
  intros Ht. unfold paginate.
  destruct (Z.eqb_spec take 0); [contradiction|]. reflexivity.
Qed.

Lemma paginate_skip (query : string) (skip : Z) :
  skip <> 0 ->
  paginate query 0 skip = query ++ " OFFSET " ++ Js.number_to_string 0.
Proof.
  intros Hk. unfold paginate. simpl.
  destruct (Z.eqb_spec skip 0); [contradiction|]. reflexivity.
Qed.

Lemma paginate_none (query : string) : paginate query 0 0 = query.
Proof. reflexivity. Qed.

End FindAll.

Lemma make_string_limit (base : string) (take : Z) :
  make_string (base ++ " LIMIT " ++ Js.number_to_string take)
  = make_string base ++ " LIMIT " ++ Js.number_to_string take.
Proof. now rewrite !make_string_append, make_string_number. Qed.

Lemma make_string_limit_offset (base : string) (take skip : Z) :
  make_string (base ++ " LIMIT " ++ Js.number_to_string take
               ++ " OFFSET " ++ Js.number_to_string skip)
  = make_string base ++ " LIMIT " ++ Js.number_to_string take
    ++ " OFFSET " ++ Js.number_to_string skip.
Proof. now rewrite !make_string_append, !make_string_number. Qed.

Lemma make_string_offset (base : string) (take : Z) :
  make_string (base ++ " OFFSET " ++ Js.number_to_string take)
  = make_string base ++ " OFFSET " ++ Js.number_to_string take.
Proof. now rewrite !make_string_append, make_string_number. Qed.

(** C1.  On a registered schema, with a genuine (or null) filter and
    order builder, [findAll] appends to the SELECT it assembled:
    [" LIMIT <take> OFFSET <skip>"] when take and skip are both non-zero;
    [" LIMIT <take>"] when only take is; [" OFFSET <take>"] (the take
    variable) when only skip is; nothing when both are zero.  The text
    handed to the driver ends the same way. *)
Theorem findAll_pagination (registry : Builders.Registry) (db : Driver)
  (schema : string) (obj : obj) (builder : builder_arg) (order : order_arg)
  (take skip : option Z) (without : option (list string)) :
  Builders.schema registry schema = Some obj ->
  builder <> NotAQueryBuilder ->
  order <> NotAnOrderBuilder ->
  exists where' sort query,
    where_of builder = Ok where' /\ sort_of order = Ok sort
    /\ findAll_query schema obj builder order take skip without = Ok query
    /\ issued_sql (findAll registry db schema builder order take skip without)
       = Some (make_string query)
    /\ let base :=
         select_query schema (columns_of obj (or_empty without)) where' sort in
       let take := or_zero take in
       let skip := or_zero skip in
       (take <> 0 -> skip <> 0 ->
        query = base ++ " LIMIT " ++ Js.number_to_string take
                ++ " OFFSET " ++ Js.number_to_string skip
        /\ Js.ends_with (make_string query)
             (" LIMIT " ++ Js.number_to_string take
              ++ " OFFSET " ++ Js.number_to_string skip))
       /\ (take <> 0 -> skip = 0 ->
           query = base ++ " LIMIT " ++ Js.number_to_string take
           /\ Js.ends_with (make_string query)
                (" LIMIT " ++ Js.number_to_string take))
       /\ (take = 0 -> skip <> 0 ->
           query = base ++ " OFFSET " ++ Js.number_to_string take
           /\ Js.ends_with (make_string query)
                (" OFFSET " ++ Js.number_to_string take))
       /\ (take = 0 -> skip = 0 ->
           query = base /\ make_string query = make_string base).
Proof.
  intros Hs Hb Ho.
  destruct (where_of_genuine builder Hb) as [where' Hw].
  destruct (sort_of_genuine order Ho) as [sort Hsort].
  destruct (findAll_issues registry db schema obj builder order take skip
              without where' sort Hs Hw Hsort) as [Hq Hi].
  eexists where', sort, _.
  split; [exact Hw|]. split; [exact Hsort|].
  split; [exact Hq|]. split; [exact Hi|].
  cbv zeta.
  split; [|split; [|split]].
  - intros Ht Hk. rewrite paginate_both by assumption.
    split; [reflexivity|].
    rewrite make_string_limit_offset. apply ends_with_append.
  - intros Ht Hk. rewrite Hk, paginate_take by assumption.
    split; [reflexivity|].
    rewrite make_string_limit. apply ends_with_append.
  - intros Ht Hk. rewrite Ht, paginate_skip by assumption.
    split; [reflexivity|].
    rewrite make_string_offset. apply ends_with_append.
  - intros Ht Hk. rewrite Ht, Hk, paginate_none. split; reflexivity.
Qed.

Lemma findAll_pagination_witness :
  exists query,
    findAll_query "users" users_schema NullBuilder NullOrder (Some 10) (Some 5)
      None = Ok query
    /\ issued_sql (findAll sample_registry quiet_driver "users" NullBuilder
                     NullOrder (Some 10) (Some 5) None)
       = Some (make_string query)
    /\ Js.ends_with (make_string query) " LIMIT 10 OFFSET 5".
Proof.
  destruct (findAll_pagination sample_registry quiet_driver "users"
              users_schema NullBuilder NullOrder (Some 10) (Some 5) None)
    as (where' & sort & query & _ & _ & Hq & Hi & Hboth & _).
  - reflexivity.
  - discriminate.
  - discriminate.
  - exists query. split; [exact Hq|]. split; [exact Hi|].
    apply Hboth; simpl; lia.
Defined.

(** C8, as stated, fails in its third case: with take 0 and skip 5 the
    text ends in [OFFSET 0], not in [OFFSET 10]. *)
Lemma findAll_offset_only_is_not_offset_10 :
  issued_sql (findAll sample_registry quiet_driver "users" NullBuilder
                NullOrder (Some 0) (Some 5) None)
  = Some "SELECT id, name, age FROM users OFFSET 0"
  /\ ~ Js.ends_with "SELECT id, name, age FROM users OFFSET 0" "OFFSET 10".
Proof.
  split; [reflexivity|].
  intros H. apply ends_with_ends_withb in H. discriminate H.
Qed.

(** C8, amended.  [findAll] with take 10 and skip 5 hands the driver SQL
    ending in [LIMIT 10 OFFSET 5]; with take 10 and skip 0, SQL ending in
    [LIMIT 10]; with take 0 and skip 5, SQL ending in [OFFSET 0], the
    offset-only branch printing the take variable. *)
Theorem findAll_pagination_examples (registry : Builders.Registry)
  (db : Driver) (schema : string) (obj : obj) (builder : builder_arg)
  (order : order_arg) (without : option (list string)) :
  Builders.schema registry schema = Some obj ->
  builder <> NotAQueryBuilder ->
  order <> NotAnOrderBuilder ->
  (exists sql,
      issued_sql (findAll registry db schema builder order (Some 10) (Some 5)
                    without) = Some sql
      /\ Js.ends_with sql "LIMIT 10 OFFSET 5")
  /\ (exists sql,
         issued_sql (findAll registry db schema builder order (Some 10)
                       (Some 0) without) = Some sql
         /\ Js.ends_with sql "LIMIT 10")
  /\ (exists sql,
         issued_sql (findAll registry db schema builder order (Some 0)
                       (Some 5) without) = Some sql
         /\ Js.ends_with sql "OFFSET 0").
Proof.
  intros Hs Hb Ho.
  destruct (where_of_genuine builder Hb) as [where' Hw].
  destruct (sort_of_genuine order Ho) as [sort Hsort].
  pose proof (fun take skip =>
                proj2 (findAll_issues registry db schema obj builder order
                         take skip without where' sort Hs Hw Hsort)) as Hi.
  split; [|split]; eexists; (split; [apply Hi|]); simpl or_zero.
  - rewrite paginate_both by discriminate.
    rewrite make_string_limit_offset.
    apply (ends_with_tail _ " "), ends_with_append.
  - rewrite paginate_take by discriminate.
    rewrite make_string_limit.
    apply (ends_with_tail _ " "), ends_with_append.
  - rewrite paginate_skip by discriminate.
    rewrite make_string_offset.
    apply (ends_with_tail _ " "), ends_with_append.
Qed.

Lemma findAll_pagination_examples_witness :
  exists sql,
    issued_sql (findAll sample_registry quiet_driver "users" NullBuilder
                  NullOrder (Some 0) (Some 5) None) = Some sql
    /\ Js.ends_with sql "OFFSET 0".
Proof.
  apply (findAll_pagination_examples sample_registry quiet_driver "users"
           users_schema NullBuilder NullOrder None);
    [reflexivity | discriminate | discriminate].
Defined.

(** ** Column enumeration *)

Lemma absent_false (x : string) (a : list string) :
  Js.absent x a = false <-> In x a.
Proof.
  unfold Js.absent. rewrite negb_false_iff, existsb_exists. split.
  - intros (y & Hy & E). apply String.eqb_eq in E. now subst.
  - intros H. exists x. split; [exact H | apply String.eqb_refl].
Qed.

Lemma columns_of_excluded (obj : obj) (without : list string) (o : string) :
  In o without -> ~ In o (columns_of obj without).
Proof.
  intros Hw H. unfold columns_of in H.
  apply filter_In in H. destruct H as [_ H].
  apply absent_false in Hw. congruence.
Qed.

Lemma columns_of_nil (obj : obj) : columns_of obj [] = keys obj.
Proof.
  unfold columns_of. induction (keys obj) as [|k ks IH]; simpl;
    [reflexivity | now rewrite IH].
Qed.

Lemma append_cancel_r (a b c : string) : a ++ c = b ++ c -> a = b.
Proof.
  revert b; induction a as [|x a IH]; intros [|y b] H; simpl in H.
  - reflexivity.
  - apply (f_equal String.length) in H. simpl in H.
    rewrite length_append in H. lia.
  - apply (f_equal String.length) in H. simpl in H.
    rewrite length_append in H. lia.
  - inversion H; subst. f_equal. now apply IH.
Qed.

Lemma placeholder_excluded (column : list string) (o : string) :
  ~ In o column ->
  ~ In ("{" ++ o ++ "}") (map (fun o => "{" ++ o ++ "}") column).
Proof.
  intros Hn H. apply in_map_iff in H. destruct H as (o' & E & Hi).
  simpl in E. inversion E as [E']. apply append_cancel_r in E'.
  subst. contradiction.
Qed.

(** ** execute, insert, update, delete *)

Section Execute.

Variable registry : Builders.Registry.
Variable db : Driver.

(** [execute] hands a driver error to its continuation with [null]
    data, whether [prepare] or [run] reported it. *)
Lemma execute_delivers_error {K : Type} (sql : string) (params : make_arg)
  (callback : option JsError -> option ExecData -> K) :
  (forall e,
      db_prepare db (make (MString sql)) (make params) = Some e ->
      snd (execute db sql params callback) = callback (Some e) None)
  /\ (forall e info,
         db_prepare db (make (MString sql)) (make params) = None ->
         db_run db (make (MString sql)) (make params) = (Some e, info) ->
         snd (execute db sql params callback) = callback (Some e) None).
Proof.
  split.
  - intros e H. unfold execute. rewrite H. reflexivity.
  - intros e [lastID changes] Hp Hr. unfold execute. rewrite Hp, Hr.
    reflexivity.
Qed.

Lemma execute_success {K : Type} (sql : string) (params : make_arg)
  (callback : option JsError -> option ExecData -> K) (lastID changes : Z) :
  db_prepare db (make (MString sql)) (make params) = None ->
  db_run db (make (MString sql)) (make params) = (None, (lastID, changes)) ->
  execute db sql params callback
  = ([Prepare (make (MString sql)) (make params);
      Run (make (MString sql)) (make params)],
     callback None (Some (mkExecData lastID changes))).
Proof. intros Hp Hr. unfold execute. rewrite Hp, Hr. reflexivity. Qed.

Lemma execute_first_request {K : Type} (sql : string) (params : make_arg)
  (callback : option JsError -> option ExecData -> K) :
  exists rest,
    fst (execute db sql params callback)
    = Prepare (make (MString sql)) (make params) :: rest.
Proof.
  unfold execute. destruct (db_prepare db _ _); [now exists []|].
  destruct (db_run db _ _) as [err [lastID changes]]. now eexists.
Qed.

(** With a driver error and [null] data, the continuations of [insert],
    [update] and [delete] throw while evaluating [data.changes]. *)
Lemma callbacks_raise_on_error (primary : option Builders.PrimaryKey)
  (value : obj) (e : JsError) :
  insert_callback primary value (Some e) None
  = (Raised (TypeError "Cannot read property 'changes' of null"), value)
  /\ changes_callback value (Some e) None
     = (Raised (TypeError "Cannot read property 'changes' of null"), value).
Proof. split; reflexivity. Qed.

End Execute.

(** C5.  On a registered schema without a primary key, [update],
    [delete] and [findPK] throw [PrimaryKeyNotDefined] at the call site:
    no statement is assembled and none reaches the driver, whatever the
    record, the exclusion list and the driver are. *)
Theorem primary_key_required (registry : Builders.Registry) (db : Driver)
  (schema : string) (obj : obj) (record : list (string * jsval))
  (value : jsval) (without : option (list string)) :
  Builders.schema registry schema = Some obj ->
  Builders.primaryKey registry schema = None ->
  update registry db schema record without = Thrown PrimaryKeyNotDefined
  /\ delete registry db schema record = Thrown PrimaryKeyNotDefined
  /\ findPK registry db schema value without = Thrown PrimaryKeyNotDefined.
Proof.
  intros Hs Hp. unfold update, delete, findPK. rewrite Hs, Hp.
  repeat split.
Qed.

Lemma primary_key_required_witness :
  update sample_registry quiet_driver "logs" peter None
  = Thrown PrimaryKeyNotDefined
  /\ delete sample_registry quiet_driver "logs" peter
     = Thrown PrimaryKeyNotDefined
  /\ findPK sample_registry quiet_driver "logs" (JNum 1) None
     = Thrown PrimaryKeyNotDefined.
Proof.
  apply (primary_key_required sample_registry quiet_driver "logs" logs_schema);
    reflexivity.
Defined.

(** C4.  When the primary-key descriptor says the key is not supplied on
    insert, [insert] appends the key column to the exclusion list before
    it enumerates the columns, so the key is neither in the column list
    nor among the VALUES placeholders of the INSERT; when the driver
    reports success, the caller's record gains the key field set to the
    reported [lastID] and the callback receives a null error, that
    record and the reported [changes]. *)
Theorem insert_generated_key (registry : Builders.Registry) (db : Driver)
  (schema : string) (obj : obj) (primary : Builders.PrimaryKey)
  (value : list (string * jsval)) (without : option (list string))
  (lastID changes : Z) :
  Builders.schema registry schema = Some obj ->
  Builders.primaryKey registry schema = Some primary ->
  Builders.insert primary = false ->
  let excluded := (or_empty without ++ [Builders.name primary])%list in
  let column := columns_of obj excluded in
  let sql := make (MString (insert_query schema column)) in
  let params := make (MParameterBuilder (add_columns value column)) in
  let record := obj_set (Builders.name primary) (JNum lastID) value in
  db_prepare db sql params = None ->
  db_run db sql params = (None, (lastID, changes)) ->
  ~ In (Builders.name primary) column
  /\ ~ In ("{" ++ Builders.name primary ++ "}")
         (map (fun o => "{" ++ o ++ "}") column)
  /\ insert registry db schema value without
     = Issued [Prepare sql params; Run sql params]
         (Invoked [JNull; JObj record; JNum changes], record)
  /\ obj_get (Builders.name primary) record = JNum lastID.
Proof.
  intros Hs Hp Hi excluded column sql params record Hprep Hrun.
  assert (Hn : ~ In (Builders.name primary) column).
  { apply columns_of_excluded. apply in_or_app. right. now left. }
  split; [exact Hn|].
  split; [now apply placeholder_excluded|].
  split; [|apply obj_get_set_same].
  unfold insert. rewrite Hs, Hp. unfold insert_without. rewrite Hi.
  fold excluded. fold column.
  rewrite (execute_success db _ _ _ lastID changes Hprep Hrun).
  reflexivity.
Qed.

Lemma insert_generated_key_witness :
  ~ In "id" ["name"; "age"]
  /\ insert sample_registry quiet_driver "users" peter None
     = Issued
         [Prepare (Text "INSERT INTO users(name,age) VALUES($name,$age)")
            (Params [("$name", JStr "Peter"); ("$age", JNum 28)]);
          Run (Text "INSERT INTO users(name,age) VALUES($name,$age)")
            (Params [("$name", JStr "Peter"); ("$age", JNum 28)])]
         (Invoked
            [JNull;
             JObj [("name", JStr "Peter"); ("age", JNum 28); ("id", JNum 7)];
             JNum 1],
          [("name", JStr "Peter"); ("age", JNum 28); ("id", JNum 7)]).
Proof.
  destruct (insert_generated_key sample_registry quiet_driver "users"
              users_schema (Builders.mkPrimaryKey "id" false) peter None 7 1
              eq_refl eq_refl eq_refl eq_refl eq_refl)
    as (Hc & _ & Hi & _).
  split; [exact Hc | exact Hi].
Defined.

(** C10.  On a registered schema without a primary key, [insert] throws
    nothing at the call site: it assembles the INSERT over the columns
    of the schema, in order, that the caller's exclusion list does not
    name (over all of them when no list is passed) and hands it to the
    driver.  Its success continuation writes the generated id through
    the primary-key descriptor without testing it: with a descriptor the
    record gains the key and the callback is invoked, with the [null]
    descriptor the write throws before the callback is reached. *)
Theorem insert_without_primary_key (registry : Builders.Registry)
  (db : Driver) (schema : string) (obj : obj) (value : list (string * jsval))
  (without : option (list string)) :
  Builders.schema registry schema = Some obj ->
  Builders.primaryKey registry schema = None ->
  let excluded := match without with Some w => w | None => [] end in
  let column :=
    filter (fun o => negb (existsb (String.eqb o) excluded)) (map fst obj) in
  let sql := make (MString (insert_query schema column)) in
  let params := make (MParameterBuilder (add_columns value column)) in
  (forall o, In o column <-> In o (map fst obj) /\ ~ In o excluded)
  /\ (forall e, insert registry db schema value without <> Thrown e)
  /\ (exists rest k,
         insert registry db schema value without
         = Issued (Prepare sql params :: rest) k)
  /\ (forall lastID changes,
         db_prepare db sql params = None ->
         db_run db sql params = (None, (lastID, changes)) ->
         insert registry db schema value without
         = Issued [Prepare sql params; Run sql params]
             (Raised (TypeError "Cannot read property 'name' of null"),
              value))
  /\ (forall primary data,
         insert_callback primary value None (Some data)
         = match primary with
           | Some p =>
               let record :=
                 obj_set (Builders.name p) (JNum (id data)) value in
               (Invoked [JNull; JObj record; JNum (changes data)],
                record)
           | None =>
               (Raised (TypeError "Cannot read property 'name' of null"),
                value)
           end).
Proof.
  intros Hs Hp excluded column sql params.
  assert (E : insert registry db schema value without
              = issued (execute db (insert_query schema column)
                          (MParameterBuilder (add_columns value column))
                          (insert_callback None value))).
  { unfold insert. rewrite Hs, Hp. reflexivity. }
  split.
  { intros o. unfold column. rewrite filter_In. split.
    - intros [Hk Hx]. split; [exact Hk|]. intros Hi.
      apply absent_false in Hi. unfold Js.absent in Hi. congruence.
    - intros [Hk Hx]. split; [exact Hk|].
      destruct (negb (existsb (String.eqb o) excluded)) eqn:F;
        [reflexivity|].
      exfalso. apply Hx. apply absent_false. exact F. }
  split; [intros e; rewrite E; discriminate|].
  split.
  { destruct (execute_first_request db (insert_query schema column)
                (MParameterBuilder (add_columns value column))
                (insert_callback None value)) as [rest Hr].
    exists rest. eexists. rewrite E. unfold issued. rewrite Hr. reflexivity. }
  split.
  { intros lastID changes Hprep Hrun. rewrite E.
    rewrite (execute_success db _ _ _ lastID changes Hprep Hrun).
    reflexivity. }
  intros [p|] data; reflexivity.
Qed.

Lemma insert_without_primary_key_witness :
  (In "stamp" ["stamp"] /\ ~ In "line" ["stamp"])
  /\ insert sample_registry quiet_driver "logs" [("stamp", JNum 1)]
       (Some ["line"])
     = Issued
         [Prepare (Text "INSERT INTO logs(stamp) VALUES($stamp)")
            (Params [("$stamp", JNum 1)]);
          Run (Text "INSERT INTO logs(stamp) VALUES($stamp)")
            (Params [("$stamp", JNum 1)])]
         (Raised (TypeError "Cannot read property 'name' of null"),
          [("stamp", JNum 1)])
  /\ insert sample_registry quiet_driver "logs" peter None
     = Issued
         [Prepare (Text "INSERT INTO logs(stamp,line) VALUES($stamp,$line)")
            (Params [("$stamp", JUndefined); ("$line", JUndefined)]);
          Run (Text "INSERT INTO logs(stamp,line) VALUES($stamp,$line)")
            (Params [("$stamp", JUndefined); ("$line", JUndefined)])]
         (Raised (TypeError "Cannot read property 'name' of null"), peter).
Proof.
  destruct (insert_without_primary_key sample_registry quiet_driver "logs"
              logs_schema [("stamp", JNum 1)] (Some ["line"]) eq_refl eq_refl)
    as (Hc & _ & _ & H & _).
  destruct (insert_without_primary_key sample_registry quiet_driver "logs"
              logs_schema peter None eq_refl eq_refl) as (_ & _ & _ & H' & _).
  split; [|split].
  - split.
    + apply (proj2 (Hc "stamp")). split; [now left|].
      intros [F|[]]. discriminate F.
    + intros Hi. apply (proj1 (Hc "line")) in Hi.
      destruct Hi as [_ Hi]. apply Hi. now left.
  - apply (H 7 1); reflexivity.
  - apply (H' 7 1); reflexivity.
Defined.

(** ** Driver errors *)

(** When [prepare] reports an error, [insert] never reaches the caller's
    callback: [execute] hands the error on with [null] data, and the
    continuation throws on [data.changes].  The record is untouched. *)
Lemma insert_prepare_error (registry : Builders.Registry) (db : Driver)
  (schema : string) (obj : obj) (value : list (string * jsval))
  (without : option (list string)) (e : JsError) :
  Builders.schema registry schema = Some obj ->
  (forall sql params, db_prepare db sql params = Some e) ->
  exists sql params,
    insert registry db schema value without
    = Issued [Prepare sql params]
        (Raised (TypeError "Cannot read property 'changes' of null"), value).
Proof.
  intros Hs Hd. unfold insert. rewrite Hs. unfold execute. rewrite Hd.
  do 2 eexists. reflexivity.
Qed.

Lemma update_prepare_error (registry : Builders.Registry) (db : Driver)
  (schema : string) (obj : obj) (primary : Builders.PrimaryKey)
  (value : list (string * jsval)) (without : option (list string))
  (e : JsError) :
  Builders.schema registry schema = Some obj ->
  Builders.primaryKey registry schema = Some primary ->
  (forall sql params, db_prepare db sql params = Some e) ->
  exists sql params,
    update registry db schema value without
    = Issued [Prepare sql params]
        (Raised (TypeError "Cannot read property 'changes' of null"), value).
Proof.
  intros Hs Hp Hd. unfold update. rewrite Hs, Hp. unfold execute. rewrite Hd.
  do 2 eexists. reflexivity.
Qed.

Lemma delete_prepare_error (registry : Builders.Registry) (db : Driver)
  (schema : string) (obj : obj) (primary : Builders.PrimaryKey)
  (value : list (string * jsval)) (e : JsError) :
  Builders.schema registry schema = Some obj ->
  Builders.primaryKey registry schema = Some primary ->
  (forall sql params, db_prepare db sql params = Some e) ->
  exists sql params,
    delete registry db schema value
    = Issued [Prepare sql params]
        (Raised (TypeError "Cannot read property 'changes' of null"), value).
Proof.
  intros Hs Hp Hd. unfold delete. rewrite Hs, Hp. unfold execute. rewrite Hd.
  do 2 eexists. reflexivity.
Qed.

(** C3 at a failing input: the driver rejects every statement with a
    constraint error; [insert], [update] and [delete] on [users] end in a
    [TypeError] raised inside the driver's continuation, and the
    caller's callback is not invoked with the driver's error. *)
Lemma driver_error_not_delivered :
  insert sample_registry (failing_driver constraint_error) "users" peter None
  = Issued
      [Prepare (Text "INSERT INTO users(name,age) VALUES($name,$age)")
         (Params [("$name", JStr "Peter"); ("$age", JNum 28)])]
      (Raised (TypeError "Cannot read property 'changes' of null"), peter)
  /\ update sample_registry (failing_driver constraint_error) "users" peter
       None
     = Issued
         [Prepare (Text "UPDATE users SET name=$name,age=$age WHERE id=$id")
            (Params
               [("$id", JUndefined); ("$name", JStr "Peter");
                ("$age", JNum 28)])]
         (Raised (TypeError "Cannot read property 'changes' of null"), peter)
  /\ delete sample_registry (failing_driver constraint_error) "users" peter
     = Issued
         [Prepare (Text "DELETE FROM users WHERE id=$id")
            (Params [("$id", JUndefined)])]
         (Raised (TypeError "Cannot read property 'changes' of null"), peter).
Proof. repeat split. Qed.

(** ** count *)

Section Count.

Variable registry : Builders.Registry.
Variable db : Driver.


End Count.

(** A driver answer the engine never gives for a COUNT statement,
    neither an error nor a row: [count] then reads [data.value] on
    [null] inside the driver's continuation. *)
Lemma count_no_row_raises :
  count sample_registry quiet_driver "logs" NullBuilder
  = Issued [Get (Text "SELECT COUNT(*) As value FROM logs") (Params [])]
      (Raised (TypeError "Cannot read property 'value' of null"))
  /\ count sample_registry quiet_driver "logs" NullBuilder
     <> Issued [Get (Text "SELECT COUNT(*) As value FROM logs") (Params [])]
          (Invoked [JNull; JNum 0]).
Proof. split; [reflexivity | discriminate]. Qed.



(** The end-to-end example of the specification. *)
Example insert_peter :
  insert sample_registry quiet_driver "users" peter None
  = Issued
      [Prepare (Text "INSERT INTO users(name,age) VALUES($name,$age)")
         (Params [("$name", JStr "Peter"); ("$age", JNum 28)]);
       Run (Text "INSERT INTO users(name,age) VALUES($name,$age)")
         (Params [("$name", JStr "Peter"); ("$age", JNum 28)])]
      (Invoked
         [JNull;
          JObj [("name", JStr "Peter"); ("age", JNum 28); ("id", JNum 7)];
          JNum 1],
       [("name", JStr "Peter"); ("age", JNum 28); ("id", JNum 7)]).
Proof. reflexivity. Qed.

(** ** More on prepareSchema *)

Lemma ends_with_drop (n : nat) (s : string) : Js.ends_with s (Js.drop n s).
Proof.
  revert s; induction n as [|n IH]; intros s.
  - exists "". reflexivity.
  - destruct s as [|a s]; simpl.
    + exists "". reflexivity.
    + destruct (IH s) as [p Hp]. exists (String a p). simpl. now rewrite <- Hp.
Qed.

(** X1.  Whatever the name, [prepareSchema] returns a suffix of it: it
    only ever drops leading characters, never alters or adds one. *)
Theorem prepareSchema_suffix (name : string) :
  Js.ends_with name (prepareSchema name)
  /\ (String.length (prepareSchema name) <= String.length name)%nat.
Proof.
  assert (H : Js.ends_with name (prepareSchema name))
    by (unfold prepareSchema, Js.substring; apply ends_with_drop).
  split; [exact H|].
  destruct H as [p Hp]. rewrite Hp at 2. rewrite length_append. lia.
Qed.

(** X2.  Two edges of [prepareSchema]: a name that starts with [#] but
    has no [/] is returned whole, marker included; a name that does not
    start with [#] but contains one loses everything up to and including
    its first [#]. *)
Theorem prepareSchema_edges (a : ascii) (pre rest : string) :
  (~ Js.occurs "/" rest -> prepareSchema (String "#" rest) = String "#" rest)
  /\ (a <> "#"%char -> ~ Js.occurs "#" pre ->
      prepareSchema (String a (pre ++ String "#" rest)) = rest).
Proof.
  split.
  - apply prepareSchema_marked_no_separator.
  - apply prepareSchema_inner_hash.
Qed.

Lemma prepareSchema_edges_witness :
  prepareSchema "#users" = "#users" /\ prepareSchema "app#users" = "users".
Proof.
  destruct (prepareSchema_edges "a" "pp" "users") as [Hm Hi].
  split.
  - apply Hm. simpl. intros H.
    repeat (destruct H as [H|H]; [discriminate H|]). exact H.
  - apply Hi; [discriminate|]. simpl. intros H.
    repeat (destruct H as [H|H]; [discriminate H|]). exact H.
Defined.

(** ** More on make for SQL text *)

Lemma strip_all_plain (s : string) :
  ~ Js.occurs "{" (strip_all s) /\ ~ Js.occurs "}" (strip_all s).
Proof.
  induction s as [|a s [IHo IHc]]; simpl; [tauto|].
  destruct (Ascii.eqb_spec a "{") as [E|E].
  - simpl. split; intros [H|H]; try discriminate H; tauto.
  - destruct (Ascii.eqb_spec a "}") as [E'|E']; [tauto|].
    simpl. split; intros [H|H]; tauto.
Qed.

(** X3.  The text [make] returns for a SQL string contains no brace;
    normalising it again changes nothing; and [make] returns a SQL
    string unchanged exactly when no brace occurs in it. *)
Theorem make_string_normal_form (s : string) :
  (~ Js.occurs "{" (make_string s) /\ ~ Js.occurs "}" (make_string s))
  /\ make_string (make_string s) = make_string s
  /\ (make_string s = s <-> ~ Js.occurs "{" s /\ ~ Js.occurs "}" s).
Proof.
  assert (Hp : ~ Js.occurs "{" (make_string s)
               /\ ~ Js.occurs "}" (make_string s))
    by (rewrite make_string_strip_all; apply strip_all_plain).
  split; [exact Hp|].
  split; [apply make_string_plain; tauto|].
  split.
  - intros E. rewrite E in Hp. exact Hp.
  - intros [Ho Hc]. now apply make_string_plain.
Qed.

Lemma make_string_normal_form_witness :
  make_string "SELECT 1" = "SELECT 1".
Proof.
  apply (proj2 (proj2 (make_string_normal_form "SELECT 1"))).
  simpl. split; intros H;
    repeat (destruct H as [H|H]; [discriminate H|]); exact H.
Defined.

(** X4.  [make] shortens a SQL string by exactly the number of [}] in
    it. *)
Theorem make_string_length (s : string) :
  (String.length (make_string s) + count_char "}" s)%nat = String.length s.
Proof.
  rewrite make_string_strip_all.
  induction s as [|a s IH]; simpl; [reflexivity|].
  destruct (Ascii.eqb_spec a "{") as [E|E].
  - subst. simpl. lia.
  - destruct (Ascii.eqb a "}"); simpl; lia.
Qed.

(** ** Order rendering *)

Lemma concat_cons (sep x : string) (xs : list string) :
  String.concat sep (x :: xs)
  = x ++ fold_right (fun y r => sep ++ y ++ r) "" xs.
Proof.
  revert x; induction xs as [|y ys IH]; intros x.
  - simpl. now rewrite append_nil_r.
  - change (String.concat sep (x :: y :: ys))
      with (x ++ sep ++ String.concat sep (y :: ys)).
    rewrite IH. reflexivity.
Qed.

Lemma sort_fold_started (items : list Builders.OrderItem) (acc : string) :
  (0 < String.length acc)%nat ->
  fold_left sort_step items acc
  = acc ++ fold_right (fun y r => ", " ++ y ++ r) "" (descending items).
Proof.
  revert acc; induction items as [|o items IH]; intros acc Hacc.
  - simpl. now rewrite append_nil_r.
  - simpl fold_left. unfold sort_step at 2, descending. simpl filter.
    destruct (String.eqb (Builders.oi_type o) "desc").
    + destruct (Nat.ltb_spec 0 (String.length acc)) as [_|Hn]; [|lia].
      rewrite IH by (rewrite length_append; lia).
      simpl map. simpl fold_right. fold (descending items).
      rewrite !append_assoc. reflexivity.
    + fold (descending items). now apply IH.
Qed.

Lemma sort_fold (items : list Builders.OrderItem) :
  fold_left sort_step items "" = Js.join ", " (descending items).
Proof.
  induction items as [|o items IH]; [reflexivity|].
  simpl fold_left. unfold sort_step at 2, descending. simpl filter.
  destruct (String.eqb (Builders.oi_type o) "desc").
  - simpl map. unfold Js.join. rewrite concat_cons.
    fold (descending items). simpl.
    apply sort_fold_started. rewrite length_append. simpl. lia.
  - fold (descending items). exact IH.
Qed.

(** X5.  The sort text of an order builder is its descending directives,
    each as [<name> DESC], in order, joined with [", "]; ascending
    directives contribute nothing, so a builder without a descending
    directive gives the empty text and [findAll] emits no ORDER BY. *)
Theorem sort_of_descending (b : Builders.OrderBuilder) :
  sort_of (AnOrderBuilder b)
  = Ok (Js.join ", " (descending (Builders.ob_builder b)))
  /\ ((forall o, In o (Builders.ob_builder b) ->
                 Builders.oi_type o <> "desc") ->
      sort_of (AnOrderBuilder b) = Ok ""
      /\ forall schema column where',
           select_query schema column where' "" 
           = "SELECT " ++ Js.join ", " column ++ " FROM "
             ++ prepareSchema schema ++ where').
Proof.
  split; [simpl; now rewrite sort_fold|].
  intros H. split.
  - simpl. rewrite sort_fold. f_equal.
    unfold descending.
    replace (filter _ (Builders.ob_builder b)) with (@nil Builders.OrderItem);
      [reflexivity|].
    symmetry. induction (Builders.ob_builder b) as [|o items IH];
      [reflexivity|]. simpl.
    destruct (String.eqb_spec (Builders.oi_type o) "desc") as [E|E].
    + exfalso. apply (H o); [now left | exact E].
    + apply IH. intros o' Ho'. apply H. now right.
  - intros schema column where'. unfold select_query. simpl.
    now rewrite append_nil_r.
Qed.

Lemma sort_of_descending_witness :
  sort_of (AnOrderBuilder by_age_then_name) = Ok "age DESC, name DESC"
  /\ sort_of (AnOrderBuilder
                (Builders.mkOrderBuilder [Builders.mkOrderItem "asc" "id"]))
     = Ok "".
Proof.
  split.
  - apply (proj1 (sort_of_descending by_age_then_name)).
  - apply (proj2 (sort_of_descending
                    (Builders.mkOrderBuilder [Builders.mkOrderItem "asc" "id"]))).
    simpl. intros o [<-|[]]. discriminate.
Defined.

(** ** Errors thrown at the call site *)

(** X6.  On a schema name the registry does not know, every statement
    operation throws [Error('Schema not defined.')] at the call site and
    issues nothing, whatever its other arguments are: the check precedes
    the builder type checks and the primary-key check. *)
Theorem schema_required (registry : Builders.Registry) (db : Driver)
  (schema : string) (builder : builder_arg) (order : order_arg)
  (take skip : option Z) (without : option (list string))
  (record : list (string * jsval)) (value : jsval) :
  Builders.schema registry schema = None ->
  count registry db schema builder = Thrown (Error "Schema not defined.")
  /\ findAll registry db schema builder order take skip without
     = Thrown (Error "Schema not defined.")
  /\ findTop registry db take schema builder order without
     = Thrown (Error "Schema not defined.")
  /\ findPK registry db schema value without
     = Thrown (Error "Schema not defined.")
  /\ insert registry db schema record without
     = Thrown (Error "Schema not defined.")
  /\ update registry db schema record without
     = Thrown (Error "Schema not defined.")
  /\ delete registry db schema record = Thrown (Error "Schema not defined.").
Proof.
  intros H.
  unfold count, findTop, findAll, findPK, insert, update, delete.
  rewrite H. repeat split.
Qed.

Lemma schema_required_witness :
  count sample_registry quiet_driver "ghosts" NotAQueryBuilder
  = Thrown (Error "Schema not defined.")
  /\ update sample_registry quiet_driver "ghosts" peter None
     = Thrown (Error "Schema not defined.").
Proof.
  destruct (schema_required sample_registry quiet_driver "ghosts"
              NotAQueryBuilder NullOrder None None None peter JNull eq_refl)
    as (Hc & _ & _ & _ & _ & Hu & _).
  split; [exact Hc | exact Hu].
Defined.

(** X7.  On a registered schema, [count] and [findAll] throw
    [Error('Parameter builder must be QueryBuilder type.')] for a filter
    argument that is neither [null] nor a [QueryBuilder], whatever the
    order argument is; with an acceptable filter, [findAll] throws
    [Error('Parameter builder must be OrderBuilder type.')] for an order
    argument that is neither [null] nor an [OrderBuilder].  Nothing is
    issued in either case. *)
Theorem builder_types_required (registry : Builders.Registry) (db : Driver)
  (schema : string) (obj : obj) (builder : builder_arg) (order : order_arg)
  (take skip : option Z) (without : option (list string)) :
  Builders.schema registry schema = Some obj ->
  count registry db schema NotAQueryBuilder
  = Thrown (Error "Parameter builder must be QueryBuilder type.")
  /\ findAll registry db schema NotAQueryBuilder order take skip without
     = Thrown (Error "Parameter builder must be QueryBuilder type.")
  /\ (builder <> NotAQueryBuilder ->
      findAll registry db schema builder NotAnOrderBuilder take skip without
      = Thrown (Error "Parameter builder must be OrderBuilder type.")).
Proof.
  intros H. unfold count, findAll, findAll_query. rewrite H.
  split; [reflexivity|]. split; [reflexivity|].
  intros Hb. destruct builder; [reflexivity | reflexivity | contradiction].
Qed.

Lemma builder_types_required_witness :
  findAll sample_registry quiet_driver "users" NotAQueryBuilder
    NotAnOrderBuilder None None None
  = Thrown (Error "Parameter builder must be QueryBuilder type.")
  /\ findAll sample_registry quiet_driver "users" NullBuilder
       NotAnOrderBuilder None None None
     = Thrown (Error "Parameter builder must be OrderBuilder type.").
Proof.
  destruct (builder_types_required sample_registry quiet_driver "users"
              users_schema NullBuilder NotAnOrderBuilder None None None
              eq_refl) as (_ & Hq & Ho).
  split; [exact Hq | apply Ho; discriminate].
Defined.

(** ** What the callbacks of the readers receive *)

(** X8.  On a registered schema with acceptable builders, [findAll]
    issues exactly one [all] statement and always invokes the callback:
    with a null error and an array of the rows (the empty array when the
    driver passed none) if the driver reported no error, and with the
    error and [null] otherwise, even if the driver passed rows. *)
Theorem findAll_completion (registry : Builders.Registry) (db : Driver)
  (schema : string) (obj : obj) (builder : builder_arg) (order : order_arg)
  (take skip : option Z) (without : option (list string)) :
  Builders.schema registry schema = Some obj ->
  builder <> NotAQueryBuilder ->
  order <> NotAnOrderBuilder ->
  exists query,
    findAll_query schema obj builder order take skip without = Ok query
    /\ let sql := Text (make_string query) in
       let params := make (builder_params builder) in
       findAll registry db schema builder order take skip without
       = Issued [All sql params]
           (Invoked
              match db_all db sql params with
              | (None, Some rows) => [JNull; JArr (map JObj rows)]
              | (None, None) => [JNull; JArr []]
              | (Some e, _) => [JErr e; JNull]
              end).
Proof.
  intros Hs Hb Ho.
  destruct (where_of_genuine builder Hb) as [where' Hw].
  destruct (sort_of_genuine order Ho) as [sort Hsort].
  destruct (findAll_issues registry db schema obj builder order take skip
              without where' sort Hs Hw Hsort) as [Hq _].
  eexists. split; [exact Hq|]. cbv zeta.
  unfold findAll. rewrite Hs, Hq. unfold reader, issued. simpl make.
  destruct (db_all db _ _) as [[e|] [rows|]]; reflexivity.
Qed.

Lemma findAll_completion_witness :
  findAll sample_registry (failing_driver constraint_error) "users"
    NullBuilder NullOrder None None None
  = Issued [All (Text "SELECT id, name, age FROM users") (Params [])]
      (Invoked [JErr constraint_error; JNull]).
Proof.
  destruct (findAll_completion sample_registry
              (failing_driver constraint_error) "users" users_schema
              NullBuilder NullOrder None None None eq_refl)
    as (query & Hq & H); [discriminate | discriminate |].
  injection Hq as <-. exact H.
Defined.

Lemma ends_with_prefixed (p s suffix : string) :
  Js.ends_with s suffix -> Js.ends_with (p ++ s) suffix.
Proof. intros [q ->]. exists (p ++ q). now rewrite append_assoc. Qed.

(** X9.  On a registered schema with a primary key, [findPK] issues one
    [get] statement whose text ends in [ LIMIT 1] and whose only
    parameter is [$<key>], bound to the value looked for (a date as its
    text); the callback receives a null error and the row, a null error
    and [null] when there is no row, or the error and [null]. *)
Theorem findPK_single_row (registry : Builders.Registry) (db : Driver)
  (schema : string) (obj : obj) (primary : Builders.PrimaryKey)
  (value : jsval) (without : option (list string)) :
  Builders.schema registry schema = Some obj ->
  Builders.primaryKey registry schema = Some primary ->
  let text :=
    make_string
      (findPK_query schema (columns_of obj (or_empty without))
         (Builders.name primary)) in
  Js.ends_with text " LIMIT 1"
    /\ let sql := Text text in
       let params :=
         Params [("$" ++ Builders.name primary,
                  if Utils.isDate value then formatted value else value)] in
       findPK registry db schema value without
       = Issued [Get sql params]
           (Invoked
              match db_get db sql params with
              | (None, Some row) => [JNull; JObj row]
              | (None, None) => [JNull; JNull]
              | (Some e, _) => [JErr e; JNull]
              end).
Proof.
  intros Hs Hp text. subst text.
  split.
  - unfold findPK_query. rewrite !make_string_append.
    repeat apply ends_with_prefixed. exists "". reflexivity.
  - cbv zeta. unfold findPK. rewrite Hs, Hp. unfold get, issued.
    simpl make. unfold make_object, make_entry. simpl.
    rewrite String.eqb_refl.
    destruct (db_get db _ _) as [[e|] [row|]]; reflexivity.
Qed.

Lemma findPK_single_row_witness :
  findPK sample_registry quiet_driver "users" (JNum 7) None
  = Issued
      [Get (Text "SELECT id, name, age FROM users WHERE id=$id LIMIT 1")
         (Params [("$id", JNum 7)])]
      (Invoked [JNull; JNull]).
Proof.
  destruct (findPK_single_row sample_registry quiet_driver "users"
              users_schema (Builders.mkPrimaryKey "id" false) (JNum 7) None
              eq_refl eq_refl) as (_ & H).
  exact H.
Defined.

(** ** The contract of execute *)

(** X10.  [execute] always prepares the normalised statement first and
    runs it, with the same text and parameters, only when [prepare]
    reported no error; its continuation receives data exactly when it
    receives no error. *)
Theorem execute_contract {K : Type} (db : Driver) (sql : string)
  (params : make_arg) (callback : option JsError -> option ExecData -> K) :
  let text := make (MString sql) in
  let arg := make params in
  exists requests err data,
    execute db sql params callback = (requests, callback err data)
    /\ (data = None <-> err <> None)
    /\ (requests = [Prepare text arg] /\ db_prepare db text arg = err
        /\ err <> None
        \/ requests = [Prepare text arg; Run text arg]
           /\ db_prepare db text arg = None
           /\ fst (db_run db text arg) = err).
Proof.
  intros text arg. unfold execute. fold text. fold arg.
  destruct (db_prepare db text arg) as [e|] eqn:Hp.
  - exists [Prepare text arg], (Some e), None.
    split; [reflexivity|]. split; [split; [discriminate | reflexivity]|].
    left. repeat split. discriminate.
  - destruct (db_run db text arg) as [[e|] [lastID changes]].
    + exists [Prepare text arg; Run text arg], (Some e), None.
      split; [reflexivity|]. split; [split; [discriminate | reflexivity]|].
      right. repeat split.
    + exists [Prepare text arg; Run text arg], None,
        (Some (mkExecData lastID changes)).
      split; [reflexivity|].
      split; [split; [discriminate | intros H; now contradiction H]|].
      right. repeat split.
Qed.

Lemma execute_contract_witness :
  exists requests err data,
    execute (failing_driver constraint_error) "DELETE FROM users" MNull
      (fun err data => (err, data))
    = (requests, (err, data))
    /\ (data = None <-> err <> None).
Proof.
  destruct (execute_contract (failing_driver constraint_error)
              "DELETE FROM users" MNull (fun err data => (err, data)))
    as (requests & err & data & He & Hd & _).
  exists requests, err, data. split; [exact He | exact Hd].
Defined.

(** ** Parameters bound by insert, update and delete *)

Lemma add_columns_params (value : obj) (column : list string) :
  NoDup column ->
  Builders.pb_params (add_columns value column)
  = map (fun o => (o, obj_get o value)) column.
Proof.
  intros ND.
  assert (E : forall b,
             fold_left (fun b o => Builders.add o (obj_get o value) b) column b
             = fold_left (fun b e => Builders.add (fst e) (snd e) b)
                 (map (fun o => (o, obj_get o value)) column) b).
  { induction column as [|o column IH]; intros b; [reflexivity|].
    inversion ND; subst. simpl. now apply IH. }
  unfold add_columns. rewrite E.
  apply (accumulate_params (map (fun o => (o, obj_get o value)) column)).
  unfold keys. rewrite map_map. simpl. now rewrite map_id.
Qed.

Lemma make_add_columns (value : obj) (column : list string) :
  NoDup column ->
  make (MParameterBuilder (add_columns value column))
  = Params (map (bound value) column).
Proof.
  intros ND. simpl. rewrite add_columns_params by exact ND.
  rewrite make_object_map.
  - now rewrite map_map.
  - unfold keys. rewrite map_map. simpl. now rewrite map_id.
Qed.

Lemma columns_of_NoDup (obj : obj) (without : list string) :
  NoDup (keys obj) -> NoDup (columns_of obj without).
Proof. intros H. unfold columns_of. now apply NoDup_filter. Qed.

(** X11.  [insert] binds exactly one parameter per column it lists: for
    each listed column, in order, [$<column>] carries the record's value
    for it ([undefined] when the record has none, a date as its text);
    the statement reaches [prepare] first. *)
Theorem insert_binds_listed_columns (registry : Builders.Registry)
  (db : Driver) (schema : string) (obj : obj) (value : list (string * jsval))
  (without : option (list string)) :
  Builders.schema registry schema = Some obj ->
  NoDup (keys obj) ->
  let column :=
    columns_of obj
      (insert_without (Builders.primaryKey registry schema)
         (or_empty without)) in
  exists rest k,
    insert registry db schema value without
    = Issued
        (Prepare (Text (make_string (insert_query schema column)))
           (Params (map (bound value) column)) :: rest) k.
Proof.
  intros Hs ND column. unfold insert. rewrite Hs. fold column.
  destruct (execute_first_request db (insert_query schema column)
              (MParameterBuilder (add_columns value column))
              (insert_callback (Builders.primaryKey registry schema) value))
    as [rest Hr].
  exists rest. eexists. unfold issued. rewrite Hr.
  rewrite make_add_columns by now apply columns_of_NoDup.
  reflexivity.
Qed.

Lemma insert_binds_listed_columns_witness :
  exists rest k,
    insert sample_registry quiet_driver "users" [("age", JNum 28)] None
    = Issued
        (Prepare (Text "INSERT INTO users(name,age) VALUES($name,$age)")
           (Params [("$name", JUndefined); ("$age", JNum 28)]) :: rest) k.
Proof.
  apply (insert_binds_listed_columns sample_registry quiet_driver "users"
           users_schema [("age", JNum 28)] None eq_refl).
  repeat constructor; simpl; intuition discriminate.
Defined.

(** X12.  [update] binds every column of the schema, the primary key
    included and whatever the exclusion list says, while the SET list
    leaves out the primary key and the excluded columns; when the driver
    reports success the callback receives a null error, the record and
    the reported [changes], and the record is not modified. *)
Theorem update_binds_every_column (registry : Builders.Registry)
  (db : Driver) (schema : string) (obj : obj) (primary : Builders.PrimaryKey)
  (value : list (string * jsval)) (without : option (list string))
  (lastID changes : Z) :
  Builders.schema registry schema = Some obj ->
  Builders.primaryKey registry schema = Some primary ->
  NoDup (keys obj) ->
  let set :=
    columns_of obj (or_empty without ++ [Builders.name primary])%list in
  let sql :=
    Text (make_string (update_query schema set (Builders.name primary))) in
  let params := Params (map (bound value) (keys obj)) in
  db_prepare db sql params = None ->
  db_run db sql params = (None, (lastID, changes)) ->
  ~ In (Builders.name primary) set
  /\ (forall o, In o (or_empty without) -> ~ In o set)
  /\ update registry db schema value without
     = Issued [Prepare sql params; Run sql params]
         (Invoked [JNull; JObj value; JNum changes], value).
Proof.
  intros Hs Hp ND set sql params Hprep Hrun.
  split; [apply columns_of_excluded, in_or_app; right; now left|].
  split; [intros o Ho; apply columns_of_excluded, in_or_app; now left|].
  unfold update. rewrite Hs, Hp. fold set.
  unfold execute. rewrite make_add_columns by exact ND.
  simpl make. fold sql. fold params. rewrite Hprep, Hrun. reflexivity.
Qed.

Lemma update_binds_every_column_witness :
  update sample_registry quiet_driver "users" peter (Some ["age"])
  = Issued
      [Prepare (Text "UPDATE users SET name=$name WHERE id=$id")
         (Params
            [("$id", JUndefined); ("$name", JStr "Peter"); ("$age", JNum 28)]);
       Run (Text "UPDATE users SET name=$name WHERE id=$id")
         (Params
            [("$id", JUndefined); ("$name", JStr "Peter"); ("$age", JNum 28)])]
      (Invoked [JNull; JObj peter; JNum 1], peter).
Proof.
  apply (update_binds_every_column sample_registry quiet_driver "users"
           users_schema (Builders.mkPrimaryKey "id" false) peter
           (Some ["age"]) 7 1 eq_refl eq_refl);
    [repeat constructor; simpl; intuition discriminate
    | reflexivity | reflexivity].
Defined.

(** X13.  [delete] binds a single parameter, [$<key>] with the record's
    key value, and deletes by key; when the driver reports success the
    callback receives a null error, the record and the reported
    [changes], and the record is not modified. *)
Theorem delete_by_key (registry : Builders.Registry) (db : Driver)
  (schema : string) (obj : obj) (primary : Builders.PrimaryKey)
  (value : list (string * jsval)) (lastID changes : Z) :
  Builders.schema registry schema = Some obj ->
  Builders.primaryKey registry schema = Some primary ->
  let sql :=
    Text (make_string (delete_query schema (Builders.name primary))) in
  let params := Params [bound value (Builders.name primary)] in
  db_prepare db sql params = None ->
  db_run db sql params = (None, (lastID, changes)) ->
  delete registry db schema value
  = Issued [Prepare sql params; Run sql params]
      (Invoked [JNull; JObj value; JNum changes], value).
Proof.
  intros Hs Hp sql params Hprep Hrun.
  unfold delete. rewrite Hs, Hp. unfold execute.
  assert (E : make (MParameterBuilder
                      (Builders.add (Builders.name primary)
                         (obj_get (Builders.name primary) value)
                         Builders.new_ParameterBuilder)) = params).
  { simpl. unfold make_object, make_entry. simpl.
    rewrite String.eqb_refl. reflexivity. }
  rewrite E. simpl make. fold sql. rewrite Hprep, Hrun. reflexivity.
Qed.

Lemma delete_by_key_witness :
  delete sample_registry quiet_driver "users" [("id", JNum 7)]
  = Issued
      [Prepare (Text "DELETE FROM users WHERE id=$id")
         (Params [("$id", JNum 7)]);
       Run (Text "DELETE FROM users WHERE id=$id") (Params [("$id", JNum 7)])]
      (Invoked [JNull; JObj [("id", JNum 7)]; JNum 1], [("id", JNum 7)]).
Proof.
  apply (delete_by_key sample_registry quiet_driver "users" users_schema
           (Builders.mkPrimaryKey "id" false) [("id", JNum 7)] 7 1);
    reflexivity.
Defined.

(** X14.  When the descriptor says the caller supplies the key on
    insert, [insert] adds nothing to the exclusion list, so a key column
    of the schema that the caller did not exclude is listed and bound;
    on success the record's key field is set to the driver's [lastID]
    all the same, replacing the value the caller supplied. *)
Theorem insert_supplied_key (registry : Builders.Registry) (db : Driver)
  (schema : string) (obj : obj) (primary : Builders.PrimaryKey)
  (value : list (string * jsval)) (without : option (list string))
  (lastID changes : Z) :
  Builders.schema registry schema = Some obj ->
  Builders.primaryKey registry schema = Some primary ->
  Builders.insert primary = true ->
  let column := columns_of obj (or_empty without) in
  let sql := make (MString (insert_query schema column)) in
  let params := make (MParameterBuilder (add_columns value column)) in
  let record := obj_set (Builders.name primary) (JNum lastID) value in
  db_prepare db sql params = None ->
  db_run db sql params = (None, (lastID, changes)) ->
  (In (Builders.name primary) (keys obj) ->
   ~ In (Builders.name primary) (or_empty without) ->
   In (Builders.name primary) column)
  /\ insert registry db schema value without
     = Issued [Prepare sql params; Run sql params]
         (Invoked [JNull; JObj record; JNum changes], record)
  /\ obj_get (Builders.name primary) record = JNum lastID.
Proof.
  intros Hs Hp Hi column sql params record Hprep Hrun.
  split.
  { intros Hk Hw. unfold column, columns_of. apply filter_In.
    split; [exact Hk|].
    destruct (Js.absent (Builders.name primary) (or_empty without)) eqn:E;
      [reflexivity|].
    apply absent_false in E. contradiction. }
  split; [|apply obj_get_set_same].
  unfold insert. rewrite Hs, Hp. unfold insert_without. rewrite Hi.
  fold column.
  rewrite (execute_success db _ _ _ lastID changes Hprep Hrun).
  reflexivity.
Qed.

Lemma insert_supplied_key_witness :
  insert orders_registry quiet_driver "orders" an_order None
  = Issued
      [Prepare (Text "INSERT INTO orders(code,total) VALUES($code,$total)")
         (Params [("$code", JNum 40); ("$total", JNum 99)]);
       Run (Text "INSERT INTO orders(code,total) VALUES($code,$total)")
         (Params [("$code", JNum 40); ("$total", JNum 99)])]
      (Invoked
         [JNull; JObj [("code", JNum 7); ("total", JNum 99)]; JNum 1],
       [("code", JNum 7); ("total", JNum 99)]).
Proof.
  destruct (insert_supplied_key orders_registry quiet_driver "orders"
              orders_schema (Builders.mkPrimaryKey "code" true) an_order None
              7 1 eq_refl eq_refl eq_refl eq_refl eq_refl) as (_ & H & _).
  exact H.
Defined.

(** X15.  Whenever the driver reports an error for the statement an
    operation issues, at [prepare] or at [run], [insert], [update] and
    [delete] end in the [TypeError] of reading [changes] on [null]: the
    caller's callback is not invoked and the record is left as it was.
    Nothing is assumed of the driver's answers to other statements. *)
Theorem mutations_on_driver_error (registry : Builders.Registry)
  (db : Driver) (schema : string) (obj : obj) (value : list (string * jsval))
  (without : option (list string)) (e : JsError) :
  Builders.schema registry schema = Some obj ->
  let failure :=
    (Raised (TypeError "Cannot read property 'changes' of null"), value) in
  let excluded := or_empty without in
  (let column :=
     columns_of obj
       (insert_without (Builders.primaryKey registry schema) excluded) in
   let sql := make (MString (insert_query schema column)) in
   let params := make (MParameterBuilder (add_columns value column)) in
   reports db sql params e ->
   insert registry db schema value without = Issued [Prepare sql params] failure
   \/ insert registry db schema value without
      = Issued [Prepare sql params; Run sql params] failure)
  /\ (forall primary,
         Builders.primaryKey registry schema = Some primary ->
         let key := Builders.name primary in
         (let sql :=
            make (MString
                    (update_query schema
                       (columns_of obj (excluded ++ [key])%list) key)) in
          let params :=
            make (MParameterBuilder (add_columns value (keys obj))) in
          reports db sql params e ->
          update registry db schema value without
          = Issued [Prepare sql params] failure
          \/ update registry db schema value without
             = Issued [Prepare sql params; Run sql params] failure)
         /\ (let sql := make (MString (delete_query schema key)) in
             let params :=
               make (MParameterBuilder
                       (Builders.add key (obj_get key value)
                          Builders.new_ParameterBuilder)) in
             reports db sql params e ->
             delete registry db schema value
             = Issued [Prepare sql params] failure
             \/ delete registry db schema value
                = Issued [Prepare sql params; Run sql params] failure)).
Proof.
  intros Hs failure excluded.
  assert (X : forall sql params callback,
             callback (Some e) None = failure ->
             reports db (make (MString sql)) (make params) e ->
             issued (execute db sql params callback)
             = Issued [Prepare (make (MString sql)) (make params)] failure
             \/ issued (execute db sql params callback)
                = Issued [Prepare (make (MString sql)) (make params);
                          Run (make (MString sql)) (make params)] failure).
  { intros sql params callback Hc Hr. unfold execute, issued.
    destruct Hr as [Hp|[Hp Hrun]].
    - left. rewrite Hp. simpl. now rewrite Hc.
    - right. rewrite Hp.
      destruct (db_run db _ _) as [err [lastID changes]].
      simpl in Hrun. subst err. simpl. now rewrite Hc. }
  split.
  - cbv zeta. intros Hr. unfold insert. rewrite Hs.
    apply X; [reflexivity | exact Hr].
  - intros primary Hp key. split; cbv zeta; intros Hr.
    + unfold update. rewrite Hs, Hp. apply X; [reflexivity | exact Hr].
    + unfold delete. rewrite Hs, Hp. apply X; [reflexivity | exact Hr].
Qed.

Lemma mutations_on_driver_error_witness :
  insert sample_registry
    (picky_driver "INSERT INTO users(name,age) VALUES($name,$age)"
       constraint_error) "users" peter None
  = Issued
      [Prepare (Text "INSERT INTO users(name,age) VALUES($name,$age)")
         (Params [("$name", JStr "Peter"); ("$age", JNum 28)])]
      (Raised (TypeError "Cannot read property 'changes' of null"), peter)
  /\ update sample_registry (run_failing_driver constraint_error) "users"
       peter None
     = Issued
         [Prepare (Text "UPDATE users SET name=$name,age=$age WHERE id=$id")
            (Params
               [("$id", JUndefined); ("$name", JStr "Peter");
                ("$age", JNum 28)]);
          Run (Text "UPDATE users SET name=$name,age=$age WHERE id=$id")
            (Params
               [("$id", JUndefined); ("$name", JStr "Peter");
                ("$age", JNum 28)])]
         (Raised (TypeError "Cannot read property 'changes' of null"), peter).
Proof.
  split.
  - destruct (mutations_on_driver_error sample_registry
                (picky_driver "INSERT INTO users(name,age) VALUES($name,$age)"
                   constraint_error) "users" users_schema peter None
                constraint_error eq_refl) as (Hi & _).
    destruct Hi as [H|H]; [left; reflexivity | exact H | discriminate H].
  - destruct (mutations_on_driver_error sample_registry
                (run_failing_driver constraint_error) "users" users_schema
                peter None constraint_error eq_refl) as (_ & Hu).
    destruct (Hu (Builders.mkPrimaryKey "id" false) eq_refl) as (H & _).
    destruct H as [H|H];
      [right; split; reflexivity | discriminate H | exact H].
Defined.

(** X16.  [findTop] never adds an OFFSET clause: on a registered schema
    with acceptable builders the text it hands to the driver is the
    assembled SELECT followed by [ LIMIT <top>] when [top] is non-zero,
    and the bare SELECT when [top] is 0 or omitted. *)
Theorem findTop_limit_only (registry : Builders.Registry) (db : Driver)
  (top : option Z) (schema : string) (obj : obj) (builder : builder_arg)
  (order : order_arg) (without : option (list string)) :
  Builders.schema registry schema = Some obj ->
  builder <> NotAQueryBuilder ->
  order <> NotAnOrderBuilder ->
  exists where' sort,
    where_of builder = Ok where' /\ sort_of order = Ok sort
    /\ let base :=
         select_query schema (columns_of obj (or_empty without)) where' sort in
       issued_sql (findTop registry db top schema builder order without)
       = Some (if or_zero top =? 0 then make_string base
               else make_string base ++ " LIMIT "
                    ++ Js.number_to_string (or_zero top)).
Proof.
  intros Hs Hb Ho.
  destruct (where_of_genuine builder Hb) as [where' Hw].
  destruct (sort_of_genuine order Ho) as [sort Hsort].
  exists where', sort. split; [exact Hw|]. split; [exact Hsort|].
  cbv zeta. unfold findTop.
  rewrite (proj2 (findAll_issues registry db schema obj builder order top
                    (Some 0) without where' sort Hs Hw Hsort)).
  simpl or_zero at 2.
  destruct (Z.eqb_spec (or_zero top) 0) as [E|E].
  - rewrite E. reflexivity.
  - rewrite paginate_take by exact E. now rewrite make_string_limit.
Qed.

Lemma findTop_limit_only_witness :
  issued_sql (findTop sample_registry quiet_driver (Some 3) "users"
                NullBuilder (AnOrderBuilder by_age_then_name) None)
  = Some "SELECT id, name, age FROM users ORDER BY age DESC, name DESC LIMIT 3".
Proof.
  destruct (findTop_limit_only sample_registry quiet_driver (Some 3) "users"
              users_schema NullBuilder (AnOrderBuilder by_age_then_name) None
              eq_refl) as (where' & sort & Hw & Hsort & H);
    [discriminate | discriminate |].
  injection Hw as <-. injection Hsort as <-. exact H.
Defined.

(** ** The connection object *)

Lemma lifecycle_states (self : Facade.SQLite) (calls : list Facade.lifecycle) :
  fold_left Facade.step calls self = self
  \/ fold_left Facade.step calls self = Facade.open self.
Proof.
  revert self; induction calls as [|c calls IH]; intros self; [now left|].
  simpl. destruct c; simpl.
  - destruct (IH (Facade.open self)) as [H|H]; rewrite H.
    + now right.
    + right. unfold Facade.open at 1. unfold Facade.open at 1.
      destruct (Facade.isOpened self) eqn:E; simpl.
      * rewrite E. reflexivity.
      * reflexivity.
  - replace (Facade.close self) with self
      by (unfold Facade.close; now destruct (negb (Facade.isOpened self))).
    apply IH.
Qed.

Lemma open_open (self : Facade.SQLite) :
  Facade.open (Facade.open self) = Facade.open self.
Proof.
  unfold Facade.open at 1.
  unfold Facade.open at 1. destruct (Facade.isOpened self) eqn:E; simpl.
  - rewrite E. reflexivity.
  - reflexivity.
Qed.

(** X17.  Once opened, a connection object never changes again under
    [open] and [close]: [open] is idempotent and [close] releases
    nothing, so any sequence of the two after an [open] leaves the object
    as that [open] left it, opened and with the same handle. *)
Theorem connection_stays_open (self : Facade.SQLite)
  (calls : list Facade.lifecycle) :
  fold_left Facade.step calls (Facade.open self) = Facade.open self
  /\ Facade.isOpened (fold_left Facade.step calls (Facade.open self)) = true.
Proof.
  assert (H : fold_left Facade.step calls (Facade.open self)
              = Facade.open self).
  { destruct (lifecycle_states (Facade.open self) calls) as [H|H];
      rewrite H; [reflexivity | apply open_open]. }
  split; [exact H|]. rewrite H.
  unfold Facade.open. destruct (Facade.isOpened self) eqn:E;
    [exact E | reflexivity].
Qed.

(** X18.  After any sequence of [open] and [close] calls on a freshly
    constructed object, [database()] returns a handle, never [null]: the
    one for the constructor's file, its mode (the empty name when the
    mode was omitted) and its debug flag; and [run] does not throw and
    hands the driver the SQL and the parameters exactly as given, braces
    included. *)
Theorem handle_after_construction (fileName : string) (mode : option string)
  (debug : bool) (calls : list Facade.lifecycle) (sql : string)
  (params : list (string * jsval)) :
  let self := fold_left Facade.step calls (Facade.create fileName mode debug) in
  let handle :=
    Facade.mkDatabase fileName (match mode with Some m => m | None => "" end)
      debug in
  snd (Facade.database self) = Some handle
  /\ Facade.db (fst (Facade.database self)) = Some handle
  /\ snd (Facade.run self sql params) = Ok (Run (Text sql) (Params params))
  /\ Facade.isOpened (fst (Facade.run self sql params)) = true.
Proof.
  intros self handle.
  assert (E : Facade.open self
              = Facade.open (Facade.create fileName mode debug)).
  { unfold self.
    destruct (lifecycle_states (Facade.create fileName mode debug) calls)
      as [H|H]; rewrite H; [reflexivity | apply open_open]. }
  unfold Facade.database, Facade.run. simpl fst. simpl snd. rewrite E.
  repeat split.
Qed.
